(** * Octoprint-PrusaMMU: the prompt / substitution state machine

    A shallow embedding of [octoprint_prusammu/__init__.py].  The plugin is
    one long-lived Python object whose methods are invoked by the host: the
    queuing hook once per outbound command, the received hook once per
    firmware line, [on_api_command] per REST request, and [_timeout_prompt]
    from a [threading.Timer] thread.  Every method is embedded as a
    computation in a small state / trace / exception monad over the plugin
    attributes and the heap of timer objects.  Calls into collaborators
    (printer, plugin manager, settings, logger, timers) are recorded as
    events; what a collaborator answers is an explicit argument.

    Embedded: [__init__], [on_api_command], the prompt methods, the nav
    updater, the two hooks and the normalisation of [on_settings_save].
    [on_after_startup] and [_set_class_vars] are left out: a start may
    store in [mmuState] whatever the settings hold, and the state below
    keeps the status as a string. *)

From stdpp Require Import gmap strings list pretty.

Local Open Scope Z_scope.

(** ** Python values *)

(** The values that reach the plugin through JSON request bodies and that
    it stores in [mmuTool].  [bool] is a subclass of [int] in Python.
    Floats, lists and dicts carry no payload: the code only ever tests
    their type. *)
Inductive PyVal : Type :=
| PyNone
| PyBool (b : bool)
| PyInt (z : Z)
| PyStr (s : string)
| PyFloat
| PyList
| PyDict.

Global Instance PyVal_eq_dec : EqDecision PyVal.
Proof. solve_decision. Defined.

(** The instances of [int]: integers proper and the two booleans. *)
Inductive IntVal : Type :=
| IInt (z : Z)
| IBool (b : bool).

(** [isinstance(v, int)], with the instance when it holds. *)
Definition as_int (v : PyVal) : option IntVal :=
  match v with
  | PyInt z => Some (IInt z)
  | PyBool b => Some (IBool b)
  | _ => None
  end.

(** The number an instance of [int] compares and adds as. *)
Definition int_num (i : IntVal) : Z :=
  match i with
  | IInt z => z
  | IBool b => if b then 1 else 0
  end.

(** [str(i)] *)
Definition int_str (i : IntVal) : string :=
  match i with
  | IInt z => pretty z
  | IBool b => if b then "True" else "False"
  end.

Definition int_val (i : IntVal) : PyVal :=
  match i with
  | IInt z => PyInt z
  | IBool b => PyBool b
  end.

(** [v + 1]: defined on numbers, a [TypeError] elsewhere. *)
Definition add_one (v : PyVal) : option PyVal :=
  match v with
  | PyInt z => Some (PyInt (z + 1))
  | PyBool b => Some (PyInt (int_num (IBool b) + 1))
  | PyFloat => Some PyFloat
  | _ => None
  end.

(** [float(n)] of a Python int: the nearest binary64 number, ties to
    even, as an integer (every binary64 number from 2^53 up is one).
    [round_to_float] is that number, whatever its size. *)
Definition round_to_float (n : Z) : Z :=
  let a := Z.abs n in
  let bits := Z.log2 a + 1 in
  if bits <=? 53 then n
  else
    let shift := bits - 53 in
    let q := Z.shiftr a shift in
    let r := a - Z.shiftl q shift in
    let half := Z.shiftl 1 (shift - 1) in
    let q' := if (half <? r) || ((r =? half) && Z.odd q) then q + 1 else q in
    Z.sgn n * Z.shiftl q' shift.

(** [float(n)]: [None] stands for the [OverflowError] of an int whose
    nearest binary64 number would be 2^1024 or beyond. *)
Definition float_of_int (n : Z) : option Z :=
  let v := round_to_float n in
  if 1024 <=? Z.log2 (Z.abs v) then None else Some v.
Global Arguments float_of_int : simpl never.

(** ** Strings *)

(** [cmd.startswith(p)] *)
Definition startswith (cmd p : string) : bool := String.prefix p cmd.

(** [sub in line] on Python strings: substring containment. *)
Fixpoint contains (sub line : string) : bool :=
  String.prefix sub line ||
  match line with
  | EmptyString => false
  | String _ rest => contains sub rest
  end.

(** ** Module constants *)

Definition DEFAULT_TIMEOUT : Z := 30.
Definition TAG_PREFIX : string := "prusaMMUPlugin:".
Definition TIMEOUT_TAG : string := TAG_PREFIX +:+ "timeout".

(** ** Plugin state *)

(** The attributes set in [__init__]. [_timer] holds a reference into the
    heap of timer objects. *)
Record PrusaMMUPlugin : Type := mkPlugin {
  _active : bool;
  _selectedFilament : option string;
  _filamentChangeTriggered : bool;
  _timer : option nat;
  mmuState : string;
  mmuTool : PyVal;
  _timeout : option Z;      (* an int, or [None] *)
  _useDefaultFilament : bool;
  _displayActiveFilament : bool;
  _defaultFilament : Z
}.

(** A [threading.Timer] object: its interval (the value of the float
    it was created with) and its [finished] event.  A timer is started
    as soon as it is created. *)
Record Timer : Type := mkTimer {
  interval : Z;
  finished : bool
}.

(** The plugin object together with the timer objects it has created;
    a replaced timer stays alive on the heap. *)
Record World : Type := mkWorld {
  self : PrusaMMUPlugin;
  timers : list Timer
}.

Definition init_plugin : PrusaMMUPlugin :=
  {| _active := false;
     _selectedFilament := None;
     _filamentChangeTriggered := false;
     _timer := None;
     mmuState := "OK";
     mmuTool := PyStr "";
     _timeout := Some DEFAULT_TIMEOUT;
     _useDefaultFilament := false;
     _displayActiveFilament := false;
     _defaultFilament := 1 |}.

Definition init_world : World := {| self := init_plugin; timers := [] |}.

Definition set_active (b : bool) (p : PrusaMMUPlugin) : PrusaMMUPlugin :=
  mkPlugin b (_selectedFilament p) (_filamentChangeTriggered p) (_timer p)
           (mmuState p) (mmuTool p) (_timeout p) (_useDefaultFilament p)
           (_displayActiveFilament p) (_defaultFilament p).

Definition set_selectedFilament (f : option string) (p : PrusaMMUPlugin)
  : PrusaMMUPlugin :=
  mkPlugin (_active p) f (_filamentChangeTriggered p) (_timer p)
           (mmuState p) (mmuTool p) (_timeout p) (_useDefaultFilament p)
           (_displayActiveFilament p) (_defaultFilament p).

Definition set_filamentChangeTriggered (b : bool) (p : PrusaMMUPlugin)
  : PrusaMMUPlugin :=
  mkPlugin (_active p) (_selectedFilament p) b (_timer p)
           (mmuState p) (mmuTool p) (_timeout p) (_useDefaultFilament p)
           (_displayActiveFilament p) (_defaultFilament p).

Definition set_timer (t : option nat) (p : PrusaMMUPlugin) : PrusaMMUPlugin :=
  mkPlugin (_active p) (_selectedFilament p) (_filamentChangeTriggered p) t
           (mmuState p) (mmuTool p) (_timeout p) (_useDefaultFilament p)
           (_displayActiveFilament p) (_defaultFilament p).

Definition set_mmuState (st : string) (p : PrusaMMUPlugin) : PrusaMMUPlugin :=
  mkPlugin (_active p) (_selectedFilament p) (_filamentChangeTriggered p)
           (_timer p) st (mmuTool p) (_timeout p) (_useDefaultFilament p)
           (_displayActiveFilament p) (_defaultFilament p).

Definition set_mmuTool (v : PyVal) (p : PrusaMMUPlugin) : PrusaMMUPlugin :=
  mkPlugin (_active p) (_selectedFilament p) (_filamentChangeTriggered p)
           (_timer p) (mmuState p) v (_timeout p) (_useDefaultFilament p)
           (_displayActiveFilament p) (_defaultFilament p).

(** ** Events: calls into collaborators *)

(** The [dict(action=...)] payloads of [send_plugin_message]. *)
Inductive Message : Type :=
| MsgShow
| MsgClose
| MsgNav (tool : PyVal) (state : string).

Inductive Event : Type :=
| LogInfo (parts : list PyVal)              (* _logger.info(str of the parts, concatenated) *)
| SendPluginMessage (m : Message)           (* _plugin_manager.send_plugin_message *)
| SetJobOnHold (value : bool)               (* _printer.set_job_on_hold(value) *)
| PrinterCommands (cmd : string) (tags : gset string)  (* _printer.commands *)
| SettingsSet (key : string) (v : PyVal)    (* _settings.set *)
| SettingsSave                              (* _settings.save *)
| TimerStart (id : nat)                     (* Timer.start *)
| TimerCancel (id : nat).                   (* Timer.cancel *)

(** ** Exceptions *)

Inductive Exc : Type :=
| TypeError
| KeyError
| AttributeError
| OverflowError
| HTTPException (code : Z).     (* flask.abort(code, ...) *)

(** ** The monad: state, event trace, exceptions *)

Record Run (A : Type) : Type := mkRun {
  value : Exc + A;
  final : World;
  trace : list Event
}.
Arguments mkRun {A} _ _ _.
Arguments value {A} _.
Arguments final {A} _.
Arguments trace {A} _.

Definition M (A : Type) : Type := World → Run A.

Definition ret {A} (a : A) : M A := λ w, mkRun (inr a) w [].

Definition bind {A B} (k : A → M B) (m : M A) : M B := λ w,
  match m w with
  | mkRun (inl e) w' tr => mkRun (inl e) w' tr
  | mkRun (inr a) w' tr =>
      match k a w' with
      | mkRun v w'' tr' => mkRun v w'' (tr ++ tr')
      end
  end.

(** stdpp's monad notations: [x ← m; k] and [m;; k]. *)
Global Instance M_ret : MRet M := @ret.
Global Instance M_bind : MBind M := @bind.

Definition raise {A} (e : Exc) : M A := λ w, mkRun (inl e) w [].
Definition emit (ev : Event) : M unit := λ w, mkRun (inr tt) w [ev].
Definition get_self : M PrusaMMUPlugin := λ w, mkRun (inr (self w)) w [].
Definition get_timers : M (list Timer) := λ w, mkRun (inr (timers w)) w [].
Definition modify_self (f : PrusaMMUPlugin → PrusaMMUPlugin) : M unit :=
  λ w, mkRun (inr tt) (mkWorld (f (self w)) (timers w)) [].
Definition modify_timers (f : list Timer → list Timer) : M unit :=
  λ w, mkRun (inr tt) (mkWorld (self w) (f (timers w))) [].

(** ** Prompt *)

(** Setting the [finished] event of the timer object [id]. *)
Definition set_finished (id : nat) (ts : list Timer) : list Timer :=
  match ts !! id with
  | Some t => <[id := mkTimer (interval t) true]> ts
  | None => ts
  end.

(** [Timer.cancel()]: sets the timer's [finished] event. *)
Definition Timer_cancel (id : nat) : M unit :=
  modify_timers (set_finished id);;
  emit (TimerCancel id).

(** [float(self._timeout)]: a [TypeError] on [None], an [OverflowError]
    on an int beyond the range of floats. *)
Definition float_timeout (p : PrusaMMUPlugin) : M Z :=
  match _timeout p with
  | None => raise TypeError
  | Some n =>
      match float_of_int n with
      | None => raise OverflowError
      | Some v => mret v
      end
  end.

(** Lines 100-104.  The argument of [Timer] is evaluated, and may raise,
    after [_active] is set and before a timer exists. *)
Definition _show_prompt : M unit :=
  modify_self (set_active true);;
  p ← get_self;
  seconds ← float_timeout p;
  ts ← get_timers;
  modify_timers (λ ts, ts ++ [mkTimer seconds false]);;
  modify_self (set_timer (Some (length ts)));;
  emit (TimerStart (length ts));;
  emit (SendPluginMessage MsgShow).

(** Lines 116-120.  [self._timer.cancel()] on [None] is an
    [AttributeError]. *)
Definition _clean_up_prompt : M unit :=
  p ← get_self;
  match _timer p with
  | None => raise AttributeError
  | Some id => Timer_cancel id
  end;;
  modify_self (set_active false);;
  emit (SendPluginMessage MsgClose);;
  emit (SetJobOnHold false).

(** Lines 106-108. *)
Definition _timeout_prompt : M unit :=
  emit (PrinterCommands "Tx" {[ TIMEOUT_TAG ]});;
  _clean_up_prompt.

(** Lines 110-114. *)
Definition _done_prompt (command : string) : M unit :=
  emit (LogInfo [PyStr "_done_prompt "; PyStr command]);;
  modify_self (set_selectedFilament (Some command));;
  modify_self (set_filamentChangeTriggered true);;
  _clean_up_prompt.

(** The body of [threading.Timer.run] once the interval has elapsed:
    the callback runs unless [finished] is already set, and [finished]
    is set afterwards. *)
Definition Timer_run (id : nat) : M unit :=
  ts ← get_timers;
  match ts !! id with
  | None => mret tt
  | Some t =>
      (if finished t then mret tt else _timeout_prompt);;
      modify_timers (set_finished id)
  end.

(** ** Nav updater *)

(** How the settings collaborator answers the three calls of the
    [try] block in [_update_nav]: all succeed, or one of them raises. *)
Inductive SettingsFault : Type :=
| NoFault
| RaiseAtSetState
| RaiseAtSetTool
| RaiseAtSave.

(** The [try: ... except: log; pass] block.  Calls that complete are
    recorded; the call that raises is followed by the FAILED log line. *)
Definition save_mmu_settings (fault : SettingsFault) : M unit :=
  p ← get_self;
  let failed := LogInfo [PyStr "_update_nav FAILED S: "; PyStr (mmuState p);
                         PyStr " T: "; mmuTool p] in
  match fault with
  | RaiseAtSetState => emit failed
  | RaiseAtSetTool =>
      emit (SettingsSet "mmuState" (PyStr (mmuState p)));;
      emit failed
  | RaiseAtSave =>
      emit (SettingsSet "mmuState" (PyStr (mmuState p)));;
      emit (SettingsSet "mmuTool" (mmuTool p));;
      emit failed
  | NoFault =>
      emit (SettingsSet "mmuState" (PyStr (mmuState p)));;
      emit (SettingsSet "mmuTool" (mmuTool p));;
      emit SettingsSave
  end.

(** Lines 124-147. *)
Definition _update_nav (fault : SettingsFault) (state : string) : M unit :=
  p ← get_self;
  if decide (state = mmuState p) then mret tt
  else
    modify_self (set_mmuState state);;
    p ← get_self;
    emit (LogInfo [PyStr "_update_nav S: "; PyStr (mmuState p);
                   PyStr " T: "; mmuTool p]);;
    save_mmu_settings fault;;
    emit (SendPluginMessage (MsgNav (mmuTool p) (mmuState p))).

(** ** SimpleApiPlugin *)

(** [flask.abort(400, "{!r} is not a valid ...".format(choice+1))]:
    the argument is evaluated first, and [choice+1] raises [TypeError]
    on a value that is not a number. *)
Definition abort_invalid_choice {A} (choice : PyVal) : M A :=
  match add_one choice with
  | None => raise TypeError
  | Some _ => raise (HTTPException 400)
  end.

(** Lines 83-91 of [on_api_command]: the three guards of "select".
    [can] is the answer of [user_permission.can()]. *)
Definition select_guards (can : bool) (data : gmap string PyVal) : M IntVal :=
  if negb can then raise (HTTPException 403)
  else
    p ← get_self;
    if negb (_active p) then raise (HTTPException 409)
    else
      match data !! "choice" with
      | None => raise KeyError
      | Some choice =>
          match as_int choice with
          | None => abort_invalid_choice choice
          | Some i =>
              if negb (int_num i <? 5) || negb (int_num i >=? 0)
              then abort_invalid_choice choice
              else mret i
          end
      end.

(** Lines 93-96 of [on_api_command]. *)
Definition select_apply (choice : IntVal) : M unit :=
  emit (LogInfo [PyStr "on_api_command T"; PyStr (int_str choice)]);;
  modify_self (set_mmuTool (int_val choice));;
  _done_prompt ("T" +:+ int_str choice).

(** Lines 81-96.  A command other than "select" falls through. *)
Definition on_api_command (can : bool) (command : string)
    (data : gmap string PyVal) : M unit :=
  if decide (command = "select") then
    choice ← select_guards can data;
    select_apply choice
  else mret tt.

(** ** Hooks *)

(** What the queuing hook hands back to the host, under the names the
    host's hook protocol gives them: [None] leaves the command as it is,
    the 1-tuple [(None,)] suppresses it, a list of 1-tuples replaces it
    by the listed commands. *)
Inductive HookRet : Type :=
| PassThrough                       (* return / return None *)
| Suppress                          (* return None, *)
| Rewrite (cmds : list string).     (* return [(cmd,), (tool_cmd,)] *)

(** Lines 151-183.  [hold_granted] is the answer of
    [_printer.set_job_on_hold(True)]; [tags] is [None] (the declared
    default) or a set of strings. *)
Definition gcode_queuing_hook (hold_granted : bool) (cmd : string)
    (tags : option (gset string)) : M HookRet :=
  if negb (startswith cmd "Tx") && negb (startswith cmd "M109")
  then mret PassThrough
  else
    match tags with
    | None => raise TypeError
    | Some tags =>
        if decide (TIMEOUT_TAG ∈ tags) then mret PassThrough
        else if startswith cmd "M109" then
          p ← get_self;
          match _selectedFilament p with
          | Some tool_cmd =>
              if _filamentChangeTriggered p then
                modify_self (set_mmuTool (PyStr tool_cmd));;
                modify_self (set_selectedFilament None);;
                modify_self (set_filamentChangeTriggered false);;
                emit (LogInfo [PyStr "gcode_queuing_hook_M109 "; PyStr tool_cmd]);;
                mret (Rewrite [cmd; tool_cmd])
              else mret PassThrough
          | None => mret PassThrough
          end
        else
          (if startswith cmd "Tx" then
             emit (LogInfo [PyStr "gcode_queuing_hook "; PyStr cmd]);;
             emit (SetJobOnHold true);;
             if hold_granted then _show_prompt else mret tt
           else mret tt);;
          mret Suppress
    end.

(** Lines 185-202. *)
Definition gcode_received_hook (fault : SettingsFault) (line : string)
  : M string :=
  (if contains "paused for user" line then _update_nav fault "PAUSED_USER"
   else if contains "MMU not responding" line then _update_nav fault "ATTENTION"
   else if contains "MMU - ENABLED" line then _update_nav fault "OK"
   else if contains "MMU starts responding" line then _update_nav fault "OK"
   else if contains "Unloading finished" line then _update_nav fault "UNLOADING"
   else if contains "MMU can_load" line then _update_nav fault "LOADING"
   else if contains "OO succeeded" line then _update_nav fault "LOADED"
   else mret tt);;
  mret line.

(** ** Observations on traces *)

Definition is_close (ev : Event) : bool :=
  match ev with SendPluginMessage MsgClose => true | _ => false end.
Definition is_hold_release (ev : Event) : bool :=
  match ev with SetJobOnHold false => true | _ => false end.
Definition is_nav (ev : Event) : bool :=
  match ev with SendPluginMessage (MsgNav _ _) => true | _ => false end.
Definition is_ui_message (ev : Event) : bool :=
  match ev with SendPluginMessage _ => true | _ => false end.
Definition is_settings_save (ev : Event) : bool :=
  match ev with SettingsSave => true | _ => false end.
Definition is_settings_call (ev : Event) : bool :=
  match ev with SettingsSet _ _ | SettingsSave => true | _ => false end.
Definition is_printer_command (ev : Event) : bool :=
  match ev with PrinterCommands _ _ => true | _ => false end.

Definition count (P : Event → bool) (tr : list Event) : nat :=
  length (List.filter P tr).

(** ** States reached by the operations *)

(** The state an [M109] rewrite leaves behind. *)
Definition after_rewrite (tool_cmd : string) (w : World) : World :=
  mkWorld (set_filamentChangeTriggered false
             (set_selectedFilament None
                (set_mmuTool (PyStr tool_cmd) (self w))))
          (timers w).

(** Whether [float(self._timeout)] answers. *)
Definition timeout_converts (w : World) : bool :=
  match _timeout (self w) ≫= float_of_int with
  | Some _ => true
  | None => false
  end.

(** The seconds a new timer is created with, when the timeout converts. *)
Definition timeout_seconds (w : World) : Z :=
  default 0 (_timeout (self w) ≫= float_of_int).

(** The state in which [_show_prompt] leaves the world when the timeout
    converts: the session is active and a fresh timer, armed with the
    configured timeout, is referenced by [_timer]. *)
Definition after_show (w : World) : World :=
  mkWorld (set_timer (Some (length (timers w))) (set_active true (self w)))
          (timers w ++ [mkTimer (timeout_seconds w) false]).

(** The state [_clean_up_prompt] leaves behind when [_timer] refers to
    timer [id]. *)
Definition after_clean_up (id : nat) (w : World) : World :=
  mkWorld (set_active false (self w)) (set_finished id (timers w)).

(** The state a successful "select" of [choice] leaves behind. *)
Definition after_select (choice : IntVal) (id : nat) (w : World) : World :=
  after_clean_up id
    (mkWorld (set_filamentChangeTriggered true
                (set_selectedFilament (Some ("T" +:+ int_str choice))
                   (set_mmuTool (int_val choice) (self w))))
             (timers w)).

(** ** The line classifier, as the specification words it *)

(** The seven patterns in their priority order, with the status each one
    stands for. *)
Definition classifier_table : list (string * string) :=
  [ ("paused for user", "PAUSED_USER");
    ("MMU not responding", "ATTENTION");
    ("MMU - ENABLED", "OK");
    ("MMU starts responding", "OK");
    ("Unloading finished", "UNLOADING");
    ("MMU can_load", "LOADING");
    ("OO succeeded", "LOADED") ].

(** First match wins. *)
Definition classify (line : string) : option string :=
  snd <$> List.find (λ entry, contains (fst entry) line) classifier_table.

(** ** The timer thread against the request thread *)

(** The plugin takes no lock, so the request thread may be preempted
    between the guards of "select" and the statements that apply the
    choice.  The steps below are the blocks that the model runs without
    interruption: the guards of a "select" request, the rest of that
    request, and the body of the timer thread for timer [id]. *)
Inductive Step : Type :=
| SelectGuards
| SelectApply
| TimerFires.

Record Race : Type := mkRace {
  race_world : World;
  race_choice : option IntVal;   (* the request's local [choice], once validated *)
  race_trace : list Event;
  race_raised : list Exc
}.

Definition run_step (can : bool) (data : gmap string PyVal) (id : nat)
    (st : Step) (r : Race) : Race :=
  match st with
  | SelectGuards =>
      let out := select_guards can data (race_world r) in
      match value out with
      | inr i => mkRace (final out) (Some i) (race_trace r ++ trace out)
                        (race_raised r)
      | inl e => mkRace (final out) None (race_trace r ++ trace out)
                        (race_raised r ++ [e])
      end
  | SelectApply =>
      match race_choice r with
      | None => r
      | Some i =>
          let out := select_apply i (race_world r) in
          mkRace (final out) None (race_trace r ++ trace out)
                 (race_raised r ++
                  match value out with inl e => [e] | inr _ => [] end)
      end
  | TimerFires =>
      let out := Timer_run id (race_world r) in
      mkRace (final out) (race_choice r) (race_trace r ++ trace out)
             (race_raised r ++
              match value out with inl e => [e] | inr _ => [] end)
  end.

Definition run_schedule (can : bool) (data : gmap string PyVal) (id : nat)
    (sched : list Step) (w : World) : Race :=
  fold_left (λ r st, run_step can data id st r) sched (mkRace w None [] []).

(** All the ways of merging the steps of two threads, each thread's own
    steps kept in order. *)
Fixpoint interleave (xs : list Step) : list Step → list (list Step) :=
  fix inner (ys : list Step) : list (list Step) :=
    match xs, ys with
    | [], _ => [ys]
    | _, [] => [xs]
    | x :: xs', y :: ys' =>
        ((x ::.) <$> interleave xs' ys) ++ ((y ::.) <$> inner ys')
    end.

Definition select_thread : list Step := [SelectGuards; SelectApply].
Definition timer_thread : list Step := [TimerFires].

(** The clean-up ran exactly once: one "close" notification and one
    release of the hold. *)
Definition cleaned_up_once (r : Race) : Prop :=
  count is_close (race_trace r) = 1%nat ∧
  count is_hold_release (race_trace r) = 1%nat.

(** ** Scenarios: the events the host delivers, one after the other *)

Inductive Input : Type :=
| Inbound (fault : SettingsFault) (line : string)
| Outbound (hold_granted : bool) (cmd : string) (tags : option (gset string))
| ApiCommand (can : bool) (command : string) (data : gmap string PyVal)
| TimerElapsed (id : nat).

(** What the host sends to the printer for a command, given the hook's
    answer. *)
Definition sent_for (cmd : string) (ret : HookRet) : list string :=
  match ret with
  | PassThrough => [cmd]
  | Suppress => []
  | Rewrite cmds => cmds
  end.

Record Observed : Type := mkObserved {
  world : World;
  events : list Event;        (* calls into collaborators, in order *)
  outbound : list string;     (* commands the lower layer is handed *)
  raised : list Exc           (* exceptions that reached the host *)
}.

Definition deliver (o : Observed) (i : Input) : Observed :=
  match i with
  | Inbound fault line =>
      let r := gcode_received_hook fault line (world o) in
      mkObserved (final r) (events o ++ trace r) (outbound o)
        (raised o ++ match value r with inl e => [e] | inr _ => [] end)
  | Outbound h cmd tags =>
      let r := gcode_queuing_hook h cmd tags (world o) in
      mkObserved (final r) (events o ++ trace r)
        (outbound o ++ match value r with
                       | inl _ => []
                       | inr ret => sent_for cmd ret
                       end)
        (raised o ++ match value r with inl e => [e] | inr _ => [] end)
  | ApiCommand can command data =>
      let r := on_api_command can command data (world o) in
      mkObserved (final r) (events o ++ trace r) (outbound o)
        (raised o ++ match value r with inl e => [e] | inr _ => [] end)
  | TimerElapsed id =>
      let r := Timer_run id (world o) in
      mkObserved (final r) (events o ++ trace r) (outbound o)
        (raised o ++ match value r with inl e => [e] | inr _ => [] end)
  end.

Definition run_inputs (w : World) (inputs : list Input) : Observed :=
  fold_left deliver inputs (mkObserved w [] [] []).

(** Choosing tool [v] with the permission held. *)
Definition choose (v : PyVal) : Input :=
  ApiCommand true "select" {[ "choice" := v ]}.

(** ** Runs of inputs: what the later properties speak about *)

(** The inputs that cannot touch a recorded choice: firmware lines,
    elapsed timers, outbound commands other than [M109], and API commands
    other than "select". *)
Definition keeps_choice (i : Input) : bool :=
  match i with
  | Inbound _ _ => true
  | Outbound _ cmd _ => negb (startswith cmd "M109")
  | ApiCommand _ command _ => bool_decide (command ≠ "select")
  | TimerElapsed _ => true
  end.

(** The status literals that occur in [__init__] and in the received
    hook. *)
Definition status_literals : list string :=
  ["OK"; "PAUSED_USER"; "ATTENTION"; "UNLOADING"; "LOADING"; "LOADED"].

(** How often a sequence of statuses moves away from the status before
    it, starting from [cur]. *)
Fixpoint status_changes (cur : string) (sts : list string) : nat :=
  match sts with
  | [] => 0
  | st :: rest =>
      ((if decide (st = cur) then 0 else 1) + status_changes st rest)%nat
  end.

(** A firmware line delivered while the settings collaborator behaves as
    [fault] says. *)
Definition inbound (fl : SettingsFault * string) : Input :=
  Inbound (fst fl) (snd fl).

(** The session invariant of reachable worlds: while no timer was ever
    created, no prompt is active and the timer heap is empty. *)
Definition timer_known (w : World) : Prop :=
  _timer (self w) = None → _active (self w) = false ∧ timers w = [].

(** Timer [id] exists and its [finished] event is set. *)
Definition timer_done (id : nat) (w : World) : Prop :=
  ∃ t, timers w !! id = Some t ∧ finished t = true.




(** ** SettingsPlugin *)

(** [on_settings_save] works on whatever values the settings form hands
    over, through the built-ins [int] and [bool] only.  The class gathers
    what it uses of a universe [V] of Python values: ints and booleans as
    values, [int(v)] ([None] when it raises) and [bool(v)]. *)
Class PyConv (V : Type) : Type := {
  of_int : Z → V;
  of_bool : bool → V;
  py_int : V → option Z;
  py_bool : V → bool
}.

(** The instances of [int] form such a universe: [int(True)] is 1, and
    [bool] of a number tells whether it is non-zero. *)
Global Instance IntVal_conv : PyConv IntVal := {|
  of_int := IInt;
  of_bool := IBool;
  py_int := λ i, Some (int_num i);
  py_bool := λ i, negb (int_num i =? 0)
|}.

(** Lines 225-231: a missing key and a failing [int] both end in the
    [except] branch. *)
Definition save_timeout `{PyConv V} (data : gmap string V) : gmap string V :=
  match data !! "timeout" ≫= py_int with
  | Some z =>
      let data := <["timeout" := of_int z]> data in
      if z <? 0 then <["timeout" := of_int DEFAULT_TIMEOUT]> data else data
  | None => <["timeout" := of_int DEFAULT_TIMEOUT]> data
  end.

(** Lines 234-240.  The test reads back the boolean just stored.
    [bool] does not raise on what a form can hold, so the [except] branch
    is the one of the missing key. *)
Definition save_useDefaultFilament `{PyConv V} (data : gmap string V)
  : gmap string V :=
  match data !! "useDefaultFilament" with
  | Some v =>
      let b := py_bool v in
      let data := <["useDefaultFilament" := of_bool b]> data in
      if negb b then <["defaultFilament" := of_int (-1)]> data else data
  | None =>
      <["useDefaultFilament" := of_bool false]>
        (<["defaultFilament" := of_int (-1)]> data)
  end.

(** Lines 242-249. *)
Definition save_defaultFilament `{PyConv V} (data : gmap string V)
  : gmap string V :=
  match data !! "defaultFilament" ≫= py_int with
  | Some d =>
      let data := <["defaultFilament" := of_int d]> data in
      if d <? 0 then <["useDefaultFilament" := of_bool false]> data else data
  | None =>
      <["useDefaultFilament" := of_bool false]>
        (<["defaultFilament" := of_int (-1)]> data)
  end.

(** Lines 224-249 of [on_settings_save]: the dict that is handed on to
    the host's [SettingsPlugin.on_settings_save]. *)
Definition on_settings_save_data `{PyConv V} (data : gmap string V)
  : gmap string V :=
  save_defaultFilament (save_useDefaultFilament (save_timeout data)).

(** * Properties *)

(** ** Reasoning about runs *)

(** The monad laws, pointwise. *)
Lemma ret_bind {A B} (a : A) (k : A → M B) (w : World) :
  (mret a ≫= k) w = k a w.
Proof. unfold mbind, mret, M_bind, M_ret, bind, ret. by destruct (k a w). Qed.

Lemma bind_ret {A} (m : M A) (w : World) : (m ≫= mret) w = m w.
Proof.
  unfold mbind, mret, M_bind, M_ret, bind, ret.
  destruct (m w) as [[e|a] w' tr]; [done|]. by rewrite app_nil_r.
Qed.

Lemma bind_bind {A B C} (m : M A) (k : A → M B) (k' : B → M C) (w : World) :
  ((m ≫= k) ≫= k') w = (m ≫= λ a, k a ≫= k') w.
Proof.
  unfold mbind, M_bind, bind.
  destruct (m w) as [[e|a] w1 tr1]; [done|].
  destruct (k a w1) as [[e|b] w2 tr2]; [done|].
  destruct (k' b w2) as [v w3 tr3]. by rewrite app_assoc.
Qed.

Ltac unfold_run :=
  unfold mbind, mret, M_bind, M_ret, bind, ret, raise, emit, get_self,
    get_timers, modify_self, modify_timers in *.

Lemma bind_ok {A B} (m : M A) (k : A → M B) (w w' : World) (a : A)
    (tr : list Event) :
  m w = mkRun (inr a) w' tr →
  (m ≫= k) w = mkRun (value (k a w')) (final (k a w')) (tr ++ trace (k a w')).
Proof.
  intros H. unfold mbind, M_bind, bind. rewrite H. by destruct (k a w').
Qed.

Lemma bind_raise {A B} (m : M A) (k : A → M B) (w w' : World) (e : Exc)
    (tr : list Event) :
  m w = mkRun (inl e) w' tr →
  (m ≫= k) w = mkRun (inl e) w' tr.
Proof. intros H. unfold mbind, M_bind, bind. by rewrite H. Qed.

Lemma startswith_Tx_inv (cmd : string) :
  startswith cmd "Tx" = true → ∃ rest, cmd = "Tx" +:+ rest.
Proof.
  unfold startswith.
  destruct cmd as [|a [|b rest]]; cbn [String.prefix]; try discriminate.
  - destruct (Ascii.ascii_dec _ a); discriminate.
  - destruct (Ascii.ascii_dec _ a) as [<-|]; [|discriminate].
    destruct (Ascii.ascii_dec _ b) as [<-|]; [|discriminate].
    intros _. by exists rest.
Qed.

Lemma startswith_Tx_not_M109 (cmd : string) :
  startswith cmd "Tx" = true → startswith cmd "M109" = false.
Proof. intros [rest ->]%startswith_Tx_inv. reflexivity. Qed.

Lemma startswith_M109_not_Tx (cmd : string) :
  startswith cmd "M109" = true → startswith cmd "Tx" = false.
Proof.
  intros H. destruct (startswith cmd "Tx") eqn:E; [|done].
  apply startswith_Tx_not_M109 in E. congruence.
Qed.

(** A command that carries the timeout tag leaves the gate untouched. *)
Lemma gate_timeout_tag (h : bool) (cmd : string) (tags : gset string)
    (w : World) :
  TIMEOUT_TAG ∈ tags →
  gcode_queuing_hook h cmd (Some tags) w = mkRun (inr PassThrough) w [].
Proof.
  intros Hin. unfold gcode_queuing_hook.
  destruct (negb (startswith cmd "Tx") && negb (startswith cmd "M109"));
    [done|].
  by rewrite decide_True.
Qed.

(** A command that is neither a tool change nor [M109] is not looked at,
    whatever its tags. *)
Lemma gate_irrelevant (h : bool) (cmd : string) (tags : option (gset string))
    (w : World) :
  startswith cmd "Tx" = false → startswith cmd "M109" = false →
  gcode_queuing_hook h cmd tags w = mkRun (inr PassThrough) w [].
Proof. intros H1 H2. unfold gcode_queuing_hook. by rewrite H1, H2. Qed.

(** An [M109] with nothing recorded passes. *)
Lemma gate_M109_nothing_pending (h : bool) (cmd : string)
    (tags : gset string) (w : World) :
  startswith cmd "M109" = true →
  _selectedFilament (self w) = None ∨ _filamentChangeTriggered (self w) = false →
  gcode_queuing_hook h cmd (Some tags) w = mkRun (inr PassThrough) w [].
Proof.
  intros HM Hp. unfold gcode_queuing_hook. rewrite HM.
  rewrite andb_false_r. case_decide; [done|].
  unfold_run; simpl.
  destruct Hp as [-> | Hf]; [done|].
  rewrite Hf. by destruct (_selectedFilament (self w)).
Qed.

Lemma gate_M109_pending (h : bool) (cmd tool_cmd : string)
    (tags : gset string) (w : World) :
  startswith cmd "M109" = true →
  TIMEOUT_TAG ∉ tags →
  _selectedFilament (self w) = Some tool_cmd →
  _filamentChangeTriggered (self w) = true →
  gcode_queuing_hook h cmd (Some tags) w =
    mkRun (inr (Rewrite [cmd; tool_cmd])) (after_rewrite tool_cmd w)
          [LogInfo [PyStr "gcode_queuing_hook_M109 "; PyStr tool_cmd]].
Proof.
  intros HM Ht Hs Hf. unfold gcode_queuing_hook. rewrite HM.
  rewrite andb_false_r, decide_False by done.
  unfold_run; simpl. rewrite Hs, Hf. reflexivity.
Qed.

(** C1: in every state that records a selected filament ["T"+t] with the
    filament-change flag set, an [M109] command without the timeout tag is
    answered by the rewrite [cmd, "T"+t]; the record and the flag are
    cleared, [mmuTool] becomes the recorded tool command; and any [M109]
    that follows finds nothing recorded and passes through unchanged. *)
Theorem m109_rewrite_exactly_once (w : World) (t : Z) (h h' : bool)
    (cmd cmd' : string) (tags tags' : gset string) :
  _selectedFilament (self w) = Some ("T" +:+ pretty t) →
  _filamentChangeTriggered (self w) = true →
  startswith cmd "M109" = true →
  TIMEOUT_TAG ∉ tags →
  startswith cmd' "M109" = true →
  let r := gcode_queuing_hook h cmd (Some tags) w in
  let r' := gcode_queuing_hook h' cmd' (Some tags') (final r) in
  value r = inr (Rewrite [cmd; "T" +:+ pretty t]) ∧
  _selectedFilament (self (final r)) = None ∧
  _filamentChangeTriggered (self (final r)) = false ∧
  mmuTool (self (final r)) = PyStr ("T" +:+ pretty t) ∧
  value r' = inr PassThrough ∧
  final r' = final r ∧
  trace r' = [].
Proof.
  intros Hs Hf HM Ht HM' r r'. subst r r'.
  rewrite (gate_M109_pending h cmd _ tags w HM Ht Hs Hf). simpl.
  rewrite gate_M109_nothing_pending; [done|done|by left].
Qed.

Lemma m109_rewrite_exactly_once_witness :
  let w := mkWorld (set_filamentChangeTriggered true
                      (set_selectedFilament (Some "T2") init_plugin)) [] in
  let r := gcode_queuing_hook true "M109 S215" (Some ∅) w in
  let r' := gcode_queuing_hook true "M109 S210" (Some ∅) (final r) in
  value r = inr (Rewrite ["M109 S215"; "T2"]) ∧
  _selectedFilament (self (final r)) = None ∧
  _filamentChangeTriggered (self (final r)) = false ∧
  mmuTool (self (final r)) = PyStr "T2" ∧
  value r' = inr PassThrough ∧
  final r' = final r ∧
  trace r' = [].
Proof.
  apply (m109_rewrite_exactly_once
           (mkWorld (set_filamentChangeTriggered true
                       (set_selectedFilament (Some "T2") init_plugin)) [])
           2 true true "M109 S215" "M109 S210" ∅ ∅);
    try reflexivity.
  apply not_elem_of_empty.
Defined.

(** ** The gate on tool-change commands *)

(** Ints of less than 54 bits are floats. *)
Lemma float_of_int_exact (n : Z) :
  Z.abs n < 2 ^ 53 → float_of_int n = Some n.
Proof.
  intros Hn.
  assert (Z.log2 (Z.abs n) < 53) as Hlog.
  { destruct (decide (Z.abs n = 0)) as [->|Hz]; [done|].
    apply Z.log2_lt_pow2; lia. }
  unfold float_of_int, round_to_float. cbv zeta.
  assert ((Z.log2 (Z.abs n) + 1 <=? 53) = true) as -> by lia.
  assert ((1024 <=? Z.log2 (Z.abs n)) = false) as -> by lia.
  done.
Qed.

Lemma show_prompt_run (w : World) :
  timeout_converts w = true →
  _show_prompt w =
    mkRun (inr tt) (after_show w)
          [TimerStart (length (timers w)); SendPluginMessage MsgShow].
Proof.
  unfold timeout_converts, after_show, timeout_seconds.
  unfold _show_prompt, float_timeout. unfold_run. cbn.
  destruct (_timeout (self w)) as [n|]; [|done]. cbn.
  by destruct (float_of_int n).
Qed.

(** When [float(self._timeout)] raises, [_active] is already set and no
    timer exists yet. *)
Lemma show_prompt_raises (w : World) :
  timeout_converts w = false →
  ∃ e, (e = TypeError ∨ e = OverflowError) ∧
       _show_prompt w =
         mkRun (inl e) (mkWorld (set_active true (self w)) (timers w)) [].
Proof.
  unfold timeout_converts.
  unfold _show_prompt, float_timeout. unfold_run. cbn.
  destruct (_timeout (self w)) as [n|]; cbn.
  - destruct (float_of_int n); [done|]. intros _. exists OverflowError. auto.
  - intros _. exists TypeError. auto.
Qed.

Lemma gate_Tx (h : bool) (cmd : string) (tags : gset string) (w : World) :
  startswith cmd "Tx" = true →
  TIMEOUT_TAG ∉ tags →
  h = false ∨ timeout_converts w = true →
  gcode_queuing_hook h cmd (Some tags) w =
    mkRun (inr Suppress)
          (if h then after_show w else w)
          ([LogInfo [PyStr "gcode_queuing_hook "; PyStr cmd];
            SetJobOnHold true] ++
           (if h then [TimerStart (length (timers w));
                       SendPluginMessage MsgShow]
            else [])).
Proof.
  intros HT Ht Hh. unfold gcode_queuing_hook.
  rewrite (startswith_Tx_not_M109 _ HT), HT.
  replace (negb true && negb false) with false by reflexivity. cbv iota.
  rewrite decide_False by done.
  destruct h.
  - destruct Hh as [?|Hc]; [done|].
    erewrite bind_ok.
    2:{ erewrite bind_ok by reflexivity. erewrite bind_ok by reflexivity.
        rewrite (show_prompt_run w Hc). reflexivity. }
    reflexivity.
  - reflexivity.
Qed.

(** The hold was granted and [float(self._timeout)] raises: the hook
    raises with the hold taken and [_active] set. *)
Lemma gate_Tx_raises (cmd : string) (tags : gset string) (w : World) :
  startswith cmd "Tx" = true →
  TIMEOUT_TAG ∉ tags →
  timeout_converts w = false →
  ∃ e, (e = TypeError ∨ e = OverflowError) ∧
       gcode_queuing_hook true cmd (Some tags) w =
         mkRun (inl e) (mkWorld (set_active true (self w)) (timers w))
               [LogInfo [PyStr "gcode_queuing_hook "; PyStr cmd];
                SetJobOnHold true].
Proof.
  intros HT Ht Hc. unfold gcode_queuing_hook.
  rewrite (startswith_Tx_not_M109 _ HT), HT.
  replace (negb true && negb false) with false by reflexivity. cbv iota.
  rewrite decide_False by done.
  destruct (show_prompt_raises w Hc) as (e & He & Hrun).
  exists e. split; [done|].
  apply bind_raise.
  erewrite bind_ok by reflexivity.
  erewrite bind_ok by reflexivity.
  rewrite Hrun. reflexivity.
Qed.

(** C7, as the code has it: when a tool-change command arrives and the
    hold request is refused, no session is opened (the world is unchanged:
    not active, no timer armed, no "show" sent), and the gate answers
    [Suppress], the 1-tuple [(None,)] it also answers when the hold is
    granted and the prompt opens (the timeout converts to a float); the
    command is dropped, not passed through. *)
Theorem tx_hold_refused_suppresses (w : World) (cmd : string)
    (tags : gset string) :
  startswith cmd "Tx" = true →
  TIMEOUT_TAG ∉ tags →
  let r := gcode_queuing_hook false cmd (Some tags) w in
  value r = inr Suppress ∧
  final r = w ∧
  trace r = [LogInfo [PyStr "gcode_queuing_hook "; PyStr cmd];
             SetJobOnHold true] ∧
  (timeout_converts w = true →
   value (gcode_queuing_hook true cmd (Some tags) w) = inr Suppress).
Proof.
  intros HT Ht r. subst r. rewrite gate_Tx by auto.
  repeat split. intros Hc. by rewrite gate_Tx by auto.
Qed.

Lemma tx_hold_refused_suppresses_witness :
  let r := gcode_queuing_hook false "Tx" (Some ∅) init_world in
  value r = inr Suppress ∧
  final r = init_world ∧
  trace r = [LogInfo [PyStr "gcode_queuing_hook "; PyStr "Tx"];
             SetJobOnHold true] ∧
  (timeout_converts init_world = true →
   value (gcode_queuing_hook true "Tx" (Some ∅) init_world) = inr Suppress).
Proof.
  apply (tx_hold_refused_suppresses init_world "Tx" ∅).
  - reflexivity.
  - apply not_elem_of_empty.
Defined.

(** C7, as the claim words it, fails: on the initial state a tool-change
    command whose hold request is refused is not answered by
    [PassThrough]. *)
Lemma tx_hold_refused_not_passthrough :
  ¬ (let r := gcode_queuing_hook false "Tx" (Some ∅) init_world in
     _active (self (final r)) = false ∧ value r = inr PassThrough).
Proof. vm_compute. intros [_ H]. discriminate H. Qed.

(** C10: on a command that starts with "Tx" or "M109" the membership test
    on [tags] comes before every other decision: with [tags=None] the hook
    raises [TypeError] whatever the state and the answer of the printer,
    having changed nothing and called nobody; with [tags] a set it
    returns, unless it has to open a prompt (an untagged tool change
    whose hold is granted) with a timeout that [float] refuses. *)
Theorem tags_none_raises_type_error (h : bool) (cmd : string) (w : World) :
  startswith cmd "Tx" = true ∨ startswith cmd "M109" = true →
  gcode_queuing_hook h cmd None w = mkRun (inl TypeError) w [] ∧
  ∀ tags : gset string,
    (startswith cmd "Tx" = true → TIMEOUT_TAG ∉ tags → h = true →
     timeout_converts w = true) →
    ∃ ret, value (gcode_queuing_hook h cmd (Some tags) w) = inr ret.
Proof.
  intros Hcmd. split.
  - unfold gcode_queuing_hook.
    destruct Hcmd as [H|H]; rewrite H; [done|].
    by rewrite andb_false_r.
  - intros tags Hopen.
    destruct (decide (TIMEOUT_TAG ∈ tags)) as [Hin|Hout].
    { rewrite gate_timeout_tag by done. by eexists. }
    destruct Hcmd as [HT|HM].
    + rewrite gate_Tx; [by eexists|done|done|].
      destruct h; [right; by apply Hopen|by left].
    + destruct (_selectedFilament (self w)) as [f|] eqn:Hs.
      * destruct (_filamentChangeTriggered (self w)) eqn:Hf.
        -- rewrite (gate_M109_pending h cmd f tags w) by done. by eexists.
        -- rewrite gate_M109_nothing_pending; [by eexists|done|by right].
      * rewrite gate_M109_nothing_pending; [by eexists|done|by left].
Qed.

Lemma tags_none_raises_type_error_witness :
  gcode_queuing_hook true "Tx" None init_world
    = mkRun (inl TypeError) init_world [] ∧
  ∀ tags : gset string,
    (startswith "Tx" "Tx" = true → TIMEOUT_TAG ∉ tags → true = true →
     timeout_converts init_world = true) →
    ∃ ret, value (gcode_queuing_hook true "Tx" (Some tags) init_world)
           = inr ret.
Proof.
  apply (tags_none_raises_type_error true "Tx" init_world).
  left. reflexivity.
Defined.

(** ** Prompt sessions *)

Lemma set_finished_idemp (id : nat) (ts : list Timer) :
  set_finished id (set_finished id ts) = set_finished id ts.
Proof.
  unfold set_finished. destruct (ts !! id) as [t|] eqn:E.
  - rewrite list_lookup_insert_eq by (by eapply lookup_lt_Some).
    simpl. by rewrite list_insert_insert_eq.
  - by rewrite E.
Qed.

Lemma set_finished_lookup (id : nat) (ts : list Timer) (t : Timer) :
  ts !! id = Some t →
  set_finished id ts !! id = Some (mkTimer (interval t) true).
Proof.
  intros E. unfold set_finished. rewrite E.
  apply list_lookup_insert_eq. by eapply lookup_lt_Some.
Qed.

Lemma clean_up_prompt_run (id : nat) (w : World) :
  _timer (self w) = Some id →
  _clean_up_prompt w =
    mkRun (inr tt) (after_clean_up id w)
          [TimerCancel id; SendPluginMessage MsgClose; SetJobOnHold false].
Proof.
  intros Ht. unfold _clean_up_prompt, Timer_cancel. unfold_run. simpl.
  rewrite Ht. reflexivity.
Qed.

Lemma timeout_prompt_run (id : nat) (w : World) :
  _timer (self w) = Some id →
  _timeout_prompt w =
    mkRun (inr tt) (after_clean_up id w)
          [PrinterCommands "Tx" {[ TIMEOUT_TAG ]}; TimerCancel id;
           SendPluginMessage MsgClose; SetJobOnHold false].
Proof.
  intros Ht. unfold _timeout_prompt.
  erewrite bind_ok by reflexivity.
  by rewrite (clean_up_prompt_run id).
Qed.

Lemma done_prompt_run (command : string) (id : nat) (w : World) :
  _timer (self w) = Some id →
  _done_prompt command w =
    mkRun (inr tt)
      (after_clean_up id
         (mkWorld (set_filamentChangeTriggered true
                     (set_selectedFilament (Some command) (self w)))
                  (timers w)))
      [LogInfo [PyStr "_done_prompt "; PyStr command]; TimerCancel id;
       SendPluginMessage MsgClose; SetJobOnHold false].
Proof.
  intros Ht. unfold _done_prompt, _clean_up_prompt, Timer_cancel.
  unfold_run. simpl. rewrite Ht. reflexivity.
Qed.

Lemma select_apply_run (choice : IntVal) (id : nat) (w : World) :
  _timer (self w) = Some id →
  select_apply choice w =
    mkRun (inr tt) (after_select choice id w)
      [LogInfo [PyStr "on_api_command T"; PyStr (int_str choice)];
       LogInfo [PyStr "_done_prompt "; PyStr ("T" +:+ int_str choice)];
       TimerCancel id; SendPluginMessage MsgClose; SetJobOnHold false].
Proof.
  intros Ht. unfold select_apply, _done_prompt, _clean_up_prompt, Timer_cancel.
  unfold_run. simpl. rewrite Ht. reflexivity.
Qed.

(** A timer whose [finished] event is set does nothing when it elapses. *)
Lemma Timer_run_finished (id : nat) (t : Timer) (w : World) :
  timers w !! id = Some t → finished t = true →
  Timer_run id w = mkRun (inr tt) w [].
Proof.
  intros E F. unfold Timer_run. unfold_run. simpl. rewrite E, F. simpl.
  destruct w as [p ts]; simpl in *. f_equal. f_equal.
  unfold set_finished. rewrite E.
  destruct t as [i f]; simpl in *; subst f. by apply list_insert_id.
Qed.

Lemma Timer_run_armed (id : nat) (t : Timer) (w : World) :
  _timer (self w) = Some id →
  timers w !! id = Some t → finished t = false →
  Timer_run id w =
    mkRun (inr tt) (after_clean_up id w)
          [PrinterCommands "Tx" {[ TIMEOUT_TAG ]}; TimerCancel id;
           SendPluginMessage MsgClose; SetJobOnHold false].
Proof.
  intros Ht E F. unfold Timer_run.
  erewrite bind_ok by reflexivity. rewrite E, F.
  erewrite bind_ok by (by apply timeout_prompt_run).
  simpl. unfold after_clean_up. simpl. by rewrite set_finished_idemp.
Qed.

(** The guards of "select": what they answer in each case. *)
Lemma select_guards_no_permission (data : gmap string PyVal) (w : World) :
  select_guards false data w = mkRun (inl (HTTPException 403)) w [].
Proof. reflexivity. Qed.

Lemma select_guards_not_active (data : gmap string PyVal) (w : World) :
  _active (self w) = false →
  select_guards true data w = mkRun (inl (HTTPException 409)) w [].
Proof. intros H. unfold select_guards. unfold_run. simpl. by rewrite H. Qed.

Lemma select_guards_valid (data : gmap string PyVal) (w : World)
    (choice : PyVal) (i : IntVal) :
  _active (self w) = true →
  data !! "choice" = Some choice →
  as_int choice = Some i →
  0 ≤ int_num i < 5 →
  select_guards true data w = mkRun (inr i) w [].
Proof.
  intros Ha Hd Hi [H0 H5]. unfold select_guards. unfold_run. simpl.
  rewrite Ha, Hd, Hi. simpl.
  assert ((int_num i <? 5) = true) as -> by lia.
  assert ((int_num i >=? 0) = true) as -> by lia.
  reflexivity.
Qed.

(** A value that is no instance of [int], or an integer outside 0..4, is
    turned down: with status 400 when [choice+1] can be formatted into the
    message, with a [TypeError] when it cannot. *)
Lemma select_guards_invalid (data : gmap string PyVal) (w : World)
    (choice : PyVal) :
  _active (self w) = true →
  data !! "choice" = Some choice →
  (∀ i, as_int choice = Some i → ¬ 0 ≤ int_num i < 5) →
  ∃ e, (e = HTTPException 400 ∨ e = TypeError) ∧
       select_guards true data w = mkRun (inl e) w [].
Proof.
  intros Ha Hd Hbad. unfold select_guards. unfold_run. simpl.
  rewrite Ha, Hd. simpl. unfold abort_invalid_choice.
  destruct (as_int choice) as [i|] eqn:Hi.
  - specialize (Hbad i eq_refl).
    assert (negb (int_num i <? 5) || negb (int_num i >=? 0) = true) as ->.
    { destruct (int_num i <? 5) eqn:E1; [|done].
      destruct (int_num i >=? 0) eqn:E2; [|done]. lia. }
    destruct (add_one choice); simpl;
      [exists (HTTPException 400)|exists TypeError]; auto.
  - destruct (add_one choice); simpl;
      [exists (HTTPException 400)|exists TypeError]; auto.
Qed.

(** C3: when the timer of an open session elapses before any choice was
    made, exactly one "Tx" carrying the timeout tag is handed to the
    printer; the session is cleaned up (timer cancelled, [_active]
    cleared, "close" sent, hold released); the recorded selection and its
    flag are left as they were, so no substitution is set; and the gate
    passes any command that carries the timeout tag, the synthetic "Tx"
    included, without suppressing or rewriting it. *)
Theorem timeout_resolves_session (w : World) (id : nat) (t : Timer) :
  _active (self w) = true →
  _timer (self w) = Some id →
  timers w !! id = Some t →
  finished t = false →
  let r := Timer_run id w in
  value r = inr tt ∧
  trace r = [PrinterCommands "Tx" {[ TIMEOUT_TAG ]}; TimerCancel id;
             SendPluginMessage MsgClose; SetJobOnHold false] ∧
  count is_printer_command (trace r) = 1%nat ∧
  _active (self (final r)) = false ∧
  timers (final r) !! id = Some (mkTimer (interval t) true) ∧
  _selectedFilament (self (final r)) = _selectedFilament (self w) ∧
  _filamentChangeTriggered (self (final r))
    = _filamentChangeTriggered (self w) ∧
  mmuTool (self (final r)) = mmuTool (self w) ∧
  (∀ h cmd (tags : gset string) w',
     TIMEOUT_TAG ∈ tags →
     gcode_queuing_hook h cmd (Some tags) w' = mkRun (inr PassThrough) w' []).
Proof.
  intros Ha Ht E F r. subst r.
  rewrite (Timer_run_armed id t w Ht E F). simpl.
  repeat split; try done.
  - by apply set_finished_lookup.
  - intros. by apply gate_timeout_tag.
Qed.

Lemma timeout_resolves_session_witness :
  let w := after_show init_world in
  let r := Timer_run 0 w in
  value r = inr tt ∧
  trace r = [PrinterCommands "Tx" {[ TIMEOUT_TAG ]}; TimerCancel 0;
             SendPluginMessage MsgClose; SetJobOnHold false] ∧
  count is_printer_command (trace r) = 1%nat ∧
  _active (self (final r)) = false ∧
  timers (final r) !! 0%nat = Some (mkTimer 30 true) ∧
  _selectedFilament (self (final r)) = None ∧
  _filamentChangeTriggered (self (final r)) = false ∧
  mmuTool (self (final r)) = PyStr "" ∧
  (∀ h cmd (tags : gset string) w',
     TIMEOUT_TAG ∈ tags →
     gcode_queuing_hook h cmd (Some tags) w' = mkRun (inr PassThrough) w' []).
Proof.
  apply (timeout_resolves_session (after_show init_world) 0
           (mkTimer 30 false)); reflexivity.
Defined.

(** ** Choosing a filament *)

(** The rejections of "select": without the permission, without an
    active prompt, or with a choice that is no instance of [int] or lies
    outside 0..4, the request raises and nothing is changed or sent. *)
Lemma select_rejected_unchanged (can : bool) (data : gmap string PyVal)
    (w : World) :
  can = false ∨ _active (self w) = false ∨
  (∃ choice, data !! "choice" = Some choice ∧
             ∀ i, as_int choice = Some i → ¬ 0 ≤ int_num i < 5) →
  ∃ e, on_api_command can "select" data w = mkRun (inl e) w [].
Proof.
  intros Hcase. unfold on_api_command. rewrite decide_True by done.
  destruct can.
  - destruct (_active (self w)) eqn:Ha.
    + destruct Hcase as [?|[?|(choice & Hd & Hbad)]]; try discriminate.
      destruct (select_guards_invalid data w choice Ha Hd Hbad)
        as (e & _ & He).
      exists e. by erewrite bind_raise by exact He.
    + exists (HTTPException 409).
      by erewrite bind_raise by (by apply select_guards_not_active).
  - exists (HTTPException 403).
    by erewrite bind_raise by apply select_guards_no_permission.
Qed.

(** Once a session is resolved, by a choice or by the timer, a further
    "select" is turned down with status 409: no notification, no release
    of the hold, no change. *)
Lemma select_after_resolution (data : gmap string PyVal) (w : World)
    (id : nat) :
  (∀ i, on_api_command true "select" data (after_select i id w)
        = mkRun (inl (HTTPException 409)) (after_select i id w) []) ∧
  on_api_command true "select" data (after_clean_up id w)
    = mkRun (inl (HTTPException 409)) (after_clean_up id w) [].
Proof.
  unfold on_api_command. rewrite decide_True by done.
  split; [intros i|];
    by erewrite bind_raise by (by apply select_guards_not_active).
Qed.

Lemma select_accepted (data : gmap string PyVal) (w : World) (id : nat)
    (choice : PyVal) (i : IntVal) :
  _active (self w) = true →
  _timer (self w) = Some id →
  data !! "choice" = Some choice →
  as_int choice = Some i →
  0 ≤ int_num i < 5 →
  on_api_command true "select" data w =
    mkRun (inr tt) (after_select i id w)
      [LogInfo [PyStr "on_api_command T"; PyStr (int_str i)];
       LogInfo [PyStr "_done_prompt "; PyStr ("T" +:+ int_str i)];
       TimerCancel id; SendPluginMessage MsgClose; SetJobOnHold false].
Proof.
  intros Ha Ht Hd Hi Hr. unfold on_api_command. rewrite decide_True by done.
  erewrite bind_ok by (by eapply select_guards_valid).
  by rewrite (select_apply_run i id).
Qed.

(** C4, at the input where the code parts from it: a "select" whose
    choice is the JSON boolean [true] passes [isinstance(choice, int)]
    and both bounds, so it is not rejected; the session is resolved with
    the tool command "TTrue". *)
Theorem select_accepts_boolean :
  let w := after_show init_world in
  let r := on_api_command true "select" {[ "choice" := PyBool true ]} w in
  value r = inr tt ∧
  final r ≠ w ∧
  _active (self (final r)) = false ∧
  mmuTool (self (final r)) = PyBool true ∧
  _selectedFilament (self (final r)) = Some "TTrue" ∧
  _filamentChangeTriggered (self (final r)) = true ∧
  count is_close (trace r) = 1%nat ∧
  count is_hold_release (trace r) = 1%nat.
Proof. vm_compute. repeat split; try reflexivity. discriminate. Qed.

(** ** The timer against a choice *)

Example interleavings_of_the_two_threads :
  interleave select_thread timer_thread =
    [ [SelectGuards; SelectApply; TimerFires];
      [SelectGuards; TimerFires; SelectApply];
      [TimerFires; SelectGuards; SelectApply] ].
Proof. reflexivity. Qed.

(** C9, as the code has it: when each of the two runs to its end before
    the other starts, the clean-up runs exactly once.  A choice made
    first cancels the timer, whose elapsing then does nothing and sends
    nothing; a timer that elapsed first clears [_active], and the choice
    that follows is turned down with status 409 and changes nothing. *)
Theorem sequential_resolution_cleans_up_once (w : World) (id : nat)
    (t : Timer) (data : gmap string PyVal) (c : Z) :
  _active (self w) = true →
  _timer (self w) = Some id →
  timers w !! id = Some t →
  finished t = false →
  data !! "choice" = Some (PyInt c) →
  0 ≤ c < 5 →
  let choice_first :=
    run_schedule true data id [SelectGuards; SelectApply; TimerFires] w in
  let timer_first :=
    run_schedule true data id [TimerFires; SelectGuards; SelectApply] w in
  cleaned_up_once choice_first ∧
  race_world choice_first = after_select (IInt c) id w ∧
  race_raised choice_first = [] ∧
  count is_printer_command (race_trace choice_first) = 0%nat ∧
  cleaned_up_once timer_first ∧
  race_world timer_first = after_clean_up id w ∧
  race_raised timer_first = [HTTPException 409] ∧
  _selectedFilament (self (race_world timer_first))
    = _selectedFilament (self w).
Proof.
  intros Ha Ht E F Hd Hc choice_first timer_first.
  assert (choice_first =
          mkRace (after_select (IInt c) id w) None
            [LogInfo [PyStr "on_api_command T"; PyStr (pretty c)];
             LogInfo [PyStr "_done_prompt "; PyStr ("T" +:+ pretty c)];
             TimerCancel id; SendPluginMessage MsgClose; SetJobOnHold false]
            []) as ->.
  { subst choice_first. unfold run_schedule.
    cbn [fold_left run_step race_world race_trace race_raised race_choice].
    rewrite (select_guards_valid data w (PyInt c) (IInt c)) by done.
    cbn [value final trace race_world race_trace race_raised race_choice].
    rewrite (select_apply_run (IInt c) id w Ht).
    cbn [value final trace race_world race_trace race_raised race_choice].
    rewrite (Timer_run_finished id (mkTimer (interval t) true));
      [reflexivity| |reflexivity].
    by apply set_finished_lookup. }
  assert (timer_first =
          mkRace (after_clean_up id w) None
            [PrinterCommands "Tx" {[ TIMEOUT_TAG ]}; TimerCancel id;
             SendPluginMessage MsgClose; SetJobOnHold false]
            [HTTPException 409]) as ->.
  { subst timer_first. unfold run_schedule.
    cbn [fold_left run_step race_world race_trace race_raised race_choice].
    rewrite (Timer_run_armed id t w Ht E F).
    cbn [value final trace race_world race_trace race_raised race_choice].
    rewrite select_guards_not_active by reflexivity.
    reflexivity. }
  unfold cleaned_up_once. simpl. done.
Qed.

Lemma sequential_resolution_cleans_up_once_witness :
  let w := after_show init_world in
  let data : gmap string PyVal := {[ "choice" := PyInt 1 ]} in
  let choice_first :=
    run_schedule true data 0 [SelectGuards; SelectApply; TimerFires] w in
  let timer_first :=
    run_schedule true data 0 [TimerFires; SelectGuards; SelectApply] w in
  cleaned_up_once choice_first ∧
  race_world choice_first = after_select (IInt 1) 0 w ∧
  race_raised choice_first = [] ∧
  count is_printer_command (race_trace choice_first) = 0%nat ∧
  cleaned_up_once timer_first ∧
  race_world timer_first = after_clean_up 0 w ∧
  race_raised timer_first = [HTTPException 409] ∧
  _selectedFilament (self (race_world timer_first)) = None.
Proof.
  apply (sequential_resolution_cleans_up_once (after_show init_world) 0
           (mkTimer 30 false) {[ "choice" := PyInt 1 ]} 1);
    try reflexivity.
  lia.
Defined.

(** C9, as the claim words it, fails: the timer thread may run between
    the guards of "select" and the statements that apply the choice, and
    then both clean up: two "close" notifications and two releases of the
    hold for one session. *)
Lemma race_cleans_up_twice :
  let w := after_show init_world in
  let data : gmap string PyVal := {[ "choice" := PyInt 1 ]} in
  let sched := [SelectGuards; TimerFires; SelectApply] in
  sched ∈ interleave select_thread timer_thread ∧
  count is_close (race_trace (run_schedule true data 0 sched w)) = 2%nat ∧
  count is_hold_release (race_trace (run_schedule true data 0 sched w))
    = 2%nat ∧
  ¬ (∀ sched', sched' ∈ interleave select_thread timer_thread →
               cleaned_up_once (run_schedule true data 0 sched' w)).
Proof.
  assert ([SelectGuards; TimerFires; SelectApply]
            ∈ interleave select_thread timer_thread) as Hin.
  { apply list_elem_of_In. simpl. auto. }
  split; [exact Hin|].
  split; [by vm_compute|]. split; [by vm_compute|].
  intros H. specialize (H _ Hin). destruct H as [H _].
  vm_compute in H. discriminate H.
Qed.

(** ** The status tracker *)

Lemma update_nav_same (fault : SettingsFault) (w : World) :
  _update_nav fault (mmuState (self w)) w = mkRun (inr tt) w [].
Proof.
  unfold _update_nav. erewrite bind_ok by reflexivity.
  by rewrite decide_True.
Qed.

(** What [_update_nav] does on a status that differs from the current
    one: it never raises, stores the status, and ends with one "nav"
    message that carries the current tool and the new status. *)
Lemma update_nav_changed (fault : SettingsFault) (st : string) (w : World) :
  st ≠ mmuState (self w) →
  let r := _update_nav fault st w in
  value r = inr tt ∧
  final r = mkWorld (set_mmuState st (self w)) (timers w) ∧
  last (trace r) = Some (SendPluginMessage (MsgNav (mmuTool (self w)) st)) ∧
  count is_nav (trace r) = 1%nat ∧
  count is_settings_save (trace r)
    = (match fault with NoFault => 1 | _ => 0 end)%nat ∧
  (count is_settings_call (trace r) ≤ 3)%nat.
Proof.
  intros Hne r. subst r. unfold _update_nav.
  erewrite bind_ok by reflexivity. rewrite decide_False by done.
  destruct fault; vm_compute; repeat split; lia.
Qed.

Lemma update_nav_value (fault : SettingsFault) (st : string) (w : World) :
  value (_update_nav fault st w) = inr tt.
Proof.
  destruct (decide (st = mmuState (self w))) as [->|Hne].
  - by rewrite update_nav_same.
  - by apply update_nav_changed.
Qed.

Lemma update_nav_stores (fault : SettingsFault) (st : string) (w : World) :
  mmuState (self (final (_update_nav fault st w))) = st.
Proof.
  destruct (decide (st = mmuState (self w))) as [->|Hne].
  - by rewrite update_nav_same.
  - by destruct (update_nav_changed fault st w Hne) as (_ & -> & _).
Qed.

(** C8: [_update_nav] on the current status changes nothing, writes no
    setting and sends no message; so of two calls in a row with one
    status [s] the second is such a no-op, and the two together send at
    most one "nav" message and save the settings at most once. *)
Theorem update_nav_idempotent (fault fault' : SettingsFault) (s : string)
    (w : World) :
  _update_nav fault (mmuState (self w)) w = mkRun (inr tt) w [] ∧
  let r1 := _update_nav fault s w in
  let r2 := _update_nav fault' s (final r1) in
  r2 = mkRun (inr tt) (final r1) [] ∧
  (count is_nav (trace r1 ++ trace r2) ≤ 1)%nat ∧
  (count is_settings_save (trace r1 ++ trace r2) ≤ 1)%nat ∧
  (count is_settings_call (trace r1 ++ trace r2) ≤ 3)%nat.
Proof.
  split; [apply update_nav_same|].
  intros r1 r2.
  assert (r2 = mkRun (inr tt) (final r1) []) as ->.
  { subst r2. rewrite <- (update_nav_stores fault s w) at 1.
    apply update_nav_same. }
  split; [done|]. cbn [trace]. rewrite app_nil_r. subst r1.
  destruct (decide (s = mmuState (self w))) as [->|Hne].
  - rewrite update_nav_same. cbn. lia.
  - destruct (update_nav_changed fault s w Hne) as (_ & _ & _ & -> & -> & H3).
    destruct fault; lia.
Qed.

(** ** The line classifier *)

Lemma prefix_app (sub line : string) :
  String.prefix sub line = true ↔ ∃ post, line = sub +:+ post.
Proof.
  revert line. induction sub as [|a sub IH]; intros line.
  - destruct line; cbn [String.prefix]; split; eauto.
  - destruct line as [|b line]; cbn [String.prefix].
    + split; [discriminate|]. intros [post H]. discriminate H.
    + destruct (Ascii.ascii_dec a b) as [->|Hne].
      * rewrite IH. split; intros [post H]; exists post.
        -- by rewrite H.
        -- by injection H.
      * split; [discriminate|]. intros [post H]. injection H as ? ?. done.
Qed.

(** [contains] is substring containment. *)
Lemma contains_substring (sub line : string) :
  contains sub line = true ↔ ∃ pre post, line = pre +:+ sub +:+ post.
Proof.
  induction line as [|b line IH]; cbn [contains].
  - rewrite orb_false_r, prefix_app. split.
    + intros [post H]. by exists "", post.
    + intros (pre & post & H). destruct pre; [by exists post|discriminate H].
  - rewrite orb_true_iff, prefix_app, IH. split.
    + intros [[post H]|(pre & post & H)].
      * by exists "", post.
      * exists (String b pre), post. by rewrite H.
    + intros (pre & post & H). destruct pre as [|a pre].
      * left. by exists post.
      * right. injection H as -> H. by exists pre, post.
Qed.

Lemma then_return {A} (m : M unit) (a : A) (w : World) :
  value (m w) = inr tt →
  (m;; mret a) w = mkRun (inr a) (final (m w)) (trace (m w)).
Proof.
  intros H. destruct (m w) as [v w' tr] eqn:E. simpl in H. subst v.
  erewrite bind_ok by exact E. simpl. by rewrite app_nil_r.
Qed.

(** C5: the received hook tests the seven patterns in the order of the
    table; the status of the first pattern contained in the line is the
    one handed to [_update_nav]; a line that contains none of them causes
    no call, no change and no event; and the line is returned as it
    came. *)
Theorem received_hook_classifies (fault : SettingsFault) (line : string)
    (w : World) :
  let r := gcode_received_hook fault line w in
  value r = inr line ∧
  match classify line with
  | Some st => final r = final (_update_nav fault st w) ∧
               trace r = trace (_update_nav fault st w)
  | None => final r = w ∧ trace r = []
  end.
Proof.
  unfold gcode_received_hook, classify, classifier_table.
  cbn [List.find fst snd].
  repeat (destruct (contains _ line);
          [rewrite then_return by apply update_nav_value; done|]).
  done.
Qed.

(** ** The tool after a rewrite *)

(** C6, as the code has it: rewriting an [M109] stores the recorded tool
    command in [mmuTool] and writes one log line; it sends no message to
    the UI, writes no setting and does not call [_update_nav].  The tool
    reaches the UI with the next [_update_nav] whose status differs from
    the current one, in the "nav" message of that call; an update with
    the current status sends nothing. *)
Theorem m109_rewrite_leaves_ui_alone (w : World) (h : bool)
    (cmd tool_cmd : string) (tags : gset string) :
  startswith cmd "M109" = true →
  TIMEOUT_TAG ∉ tags →
  _selectedFilament (self w) = Some tool_cmd →
  _filamentChangeTriggered (self w) = true →
  let r := gcode_queuing_hook h cmd (Some tags) w in
  value r = inr (Rewrite [cmd; tool_cmd]) ∧
  mmuTool (self (final r)) = PyStr tool_cmd ∧
  mmuState (self (final r)) = mmuState (self w) ∧
  trace r = [LogInfo [PyStr "gcode_queuing_hook_M109 "; PyStr tool_cmd]] ∧
  count is_ui_message (trace r) = 0%nat ∧
  count is_settings_call (trace r) = 0%nat ∧
  (∀ fault, trace (_update_nav fault (mmuState (self w)) (final r)) = []) ∧
  (∀ fault st,
     st ≠ mmuState (self w) →
     last (trace (_update_nav fault st (final r)))
       = Some (SendPluginMessage (MsgNav (PyStr tool_cmd) st))).
Proof.
  intros HM Ht Hs Hf r. subst r.
  rewrite (gate_M109_pending h cmd tool_cmd tags w HM Ht Hs Hf).
  cbn [value final trace]. repeat split.
  - intros fault.
    change (mmuState (self w))
      with (mmuState (self (after_rewrite tool_cmd w))).
    by rewrite update_nav_same.
  - intros fault st Hne.
    by destruct (update_nav_changed fault st (after_rewrite tool_cmd w) Hne)
      as (_ & _ & -> & _).
Qed.

Lemma m109_rewrite_leaves_ui_alone_witness :
  let w := after_select (IInt 1) 0 (after_show init_world) in
  let r := gcode_queuing_hook true "M109 S215" (Some ∅) w in
  value r = inr (Rewrite ["M109 S215"; "T1"]) ∧
  mmuTool (self (final r)) = PyStr "T1" ∧
  mmuState (self (final r)) = "OK" ∧
  trace r = [LogInfo [PyStr "gcode_queuing_hook_M109 "; PyStr "T1"]] ∧
  count is_ui_message (trace r) = 0%nat ∧
  count is_settings_call (trace r) = 0%nat ∧
  (∀ fault, trace (_update_nav fault "OK" (final r)) = []) ∧
  (∀ fault st,
     st ≠ "OK" →
     last (trace (_update_nav fault st (final r)))
       = Some (SendPluginMessage (MsgNav (PyStr "T1") st))).
Proof.
  apply (m109_rewrite_leaves_ui_alone
           (after_select (IInt 1) 0 (after_show init_world))
           true "M109 S215" "T1" ∅); try reflexivity.
  apply not_elem_of_empty.
Defined.

(** C6, as the claim words it, fails: after tool 1 was chosen, the
    rewrite of "M109 S215" changes [mmuTool] and yet the hook's trace
    holds no "nav" message (and no message to the UI at all). *)
Lemma m109_rewrite_sends_no_nav :
  let w := after_select (IInt 1) 0 (after_show init_world) in
  let r := gcode_queuing_hook true "M109 S215" (Some ∅) w in
  value r = inr (Rewrite ["M109 S215"; "T1"]) ∧
  mmuTool (self (final r)) ≠ mmuTool (self w) ∧
  ¬ (∃ tool st, SendPluginMessage (MsgNav tool st) ∈ trace r).
Proof.
  vm_compute. split; [reflexivity|]. split; [discriminate|].
  intros (tool & st & Hin).
  apply list_elem_of_In in Hin. destruct Hin as [H|[]]. discriminate H.
Qed.

(** ** The scenario "MMU - ENABLED", Tx, choose(1), M109 S215 *)

(** C2, as the code has it: from the initial state the four inputs give,
    in turn: status "OK" kept with nothing written or sent; a session
    opened (hold requested, timer armed, "show" sent) and the "Tx"
    suppressed; the session resolved with tool 1 and closed (timer
    cancelled, "close" sent, hold released), [mmuTool] being the integer
    1 at that point; and "M109 S215" rewritten, so that the lower layer
    is handed "M109 S215" then "T1".  The rewrite stores the tool command
    in [mmuTool]: the final value is the string "T1". *)
Theorem scenario_enabled_tx_choose_m109 (fault : SettingsFault) :
  let i1 := Inbound fault "MMU - ENABLED" in
  let i2 := Outbound true "Tx" (Some ∅) in
  let i3 := choose (PyInt 1) in
  let i4 := Outbound true "M109 S215" (Some ∅) in
  let o1 := run_inputs init_world [i1] in
  let o2 := run_inputs init_world [i1; i2] in
  let o3 := run_inputs init_world [i1; i2; i3] in
  let o4 := run_inputs init_world [i1; i2; i3; i4] in
  (world o1 = init_world ∧ events o1 = [] ∧ mmuState (self (world o1)) = "OK") ∧
  (_active (self (world o2)) = true ∧
   timers (world o2) = [mkTimer 30 false] ∧
   events o2 = [LogInfo [PyStr "gcode_queuing_hook "; PyStr "Tx"];
                SetJobOnHold true; TimerStart 0;
                SendPluginMessage MsgShow] ∧
   outbound o2 = []) ∧
  (_active (self (world o3)) = false ∧
   timers (world o3) = [mkTimer 30 true] ∧
   _selectedFilament (self (world o3)) = Some "T1" ∧
   _filamentChangeTriggered (self (world o3)) = true ∧
   mmuTool (self (world o3)) = PyInt 1 ∧
   events o3 = events o2 ++
               [LogInfo [PyStr "on_api_command T"; PyStr "1"];
                LogInfo [PyStr "_done_prompt "; PyStr "T1"];
                TimerCancel 0; SendPluginMessage MsgClose;
                SetJobOnHold false] ∧
   outbound o3 = []) ∧
  (outbound o4 = ["M109 S215"; "T1"] ∧
   _selectedFilament (self (world o4)) = None ∧
   _filamentChangeTriggered (self (world o4)) = false ∧
   mmuTool (self (world o4)) = PyStr "T1" ∧
   mmuState (self (world o4)) = "OK" ∧
   raised o4 = []).
Proof. destruct fault; vm_compute; repeat split. Qed.

(** C2, as the claim words it, fails in its last clause: at the end of
    the scenario [mmuTool] is not the integer 1. *)
Lemma scenario_final_tool_not_integer :
  let o4 := run_inputs init_world
              [Inbound NoFault "MMU - ENABLED";
               Outbound true "Tx" (Some ∅);
               choose (PyInt 1);
               Outbound true "M109 S215" (Some ∅)] in
  outbound o4 = ["M109 S215"; "T1"] ∧
  mmuTool (self (world o4)) = PyStr "T1" ∧
  mmuTool (self (world o4)) ≠ PyInt 1.
Proof. vm_compute. repeat split. discriminate. Qed.

(** * Further properties of the code *)

(** ** Runs of inputs *)

Ltac run_cases :=
  unfold gcode_queuing_hook, gcode_received_hook, on_api_command,
    select_guards, select_apply, abort_invalid_choice, Timer_run,
    _timeout_prompt, _done_prompt, _clean_up_prompt, _show_prompt,
    float_timeout, Timer_cancel, _update_nav, save_mmu_settings;
  unfold_run; cbn;
  repeat (case_match; simplify_eq/=; try done).

(** The received hook is [_update_nav] on the classified status. *)
Lemma received_hook_run (f : SettingsFault) (l : string) (w : World) :
  gcode_received_hook f l w =
    match classify l with
    | Some st => mkRun (inr l) (final (_update_nav f st w))
                       (trace (_update_nav f st w))
    | None => mkRun (inr l) w []
    end.
Proof.
  unfold gcode_received_hook, classify, classifier_table.
  cbn [List.find fst snd].
  repeat (destruct (contains _ l);
          [by rewrite then_return by apply update_nav_value|]).
  done.
Qed.

Lemma update_nav_final (f : SettingsFault) (st : string) (w : World) :
  final (_update_nav f st w) = mkWorld (set_mmuState st (self w)) (timers w).
Proof.
  destruct (decide (st = mmuState (self w))) as [->|Hne].
  - rewrite update_nav_same. by destruct w as [[] ?].
  - by destruct (update_nav_changed f st w Hne) as (_ & -> & _).
Qed.

Lemma received_hook_final (f : SettingsFault) (l : string) (w : World) :
  final (gcode_received_hook f l w) =
    match classify l with
    | Some st => mkWorld (set_mmuState st (self w)) (timers w)
    | None => w
    end.
Proof.
  rewrite received_hook_run. destruct (classify l); [|done].
  apply update_nav_final.
Qed.

Lemma received_hook_value (f : SettingsFault) (l : string) (w : World) :
  value (gcode_received_hook f l w) = inr l.
Proof. rewrite received_hook_run. by destruct (classify l). Qed.

Lemma run_inputs_snoc (w : World) (inputs : list Input) (i : Input) :
  run_inputs w (inputs ++ [i]) = deliver (run_inputs w inputs) i.
Proof. unfold run_inputs. by rewrite fold_left_app. Qed.

(** A property of observations that every delivery keeps holds after
    every run. *)
Lemma run_inputs_invariant (P : Observed → Prop) (Q : Input → Prop) :
  (∀ o i, Q i → P o → P (deliver o i)) →
  ∀ inputs o, Forall Q inputs → P o → P (fold_left deliver inputs o).
Proof.
  intros Hstep inputs. induction inputs as [|i inputs IH]; intros o HQ HP.
  - done.
  - inversion HQ; subst. simpl. apply IH; [done|]. by apply Hstep.
Qed.

Lemma deliver_keeps_choice (o : Observed) (i : Input) :
  keeps_choice i = true →
  _selectedFilament (self (world (deliver o i)))
    = _selectedFilament (self (world o)) ∧
  _filamentChangeTriggered (self (world (deliver o i)))
    = _filamentChangeTriggered (self (world o)).
Proof.
  destruct o as [[p ts] evs out exc]. destruct i as [f l|h c tg|cn cm d|id];
    simpl; intros Hk.
  - rewrite received_hook_final. by destruct (classify l).
  - apply negb_true_iff in Hk. unfold gcode_queuing_hook. rewrite Hk.
    run_cases.
  - apply bool_decide_eq_true in Hk. unfold on_api_command.
    by rewrite decide_False.
  - run_cases.
Qed.

(** X1: a recorded choice does not expire.  Whatever firmware lines,
    elapsing timers, outbound commands other than [M109] (tool changes
    and new prompts included) and API commands other than "select" are
    delivered in between, the choice and its flag stay as recorded, and
    the next untagged [M109] is rewritten with it. *)
Theorem recorded_choice_never_expires (w : World) (inputs : list Input)
    (tool_cmd cmd : string) (h : bool) (tags : gset string) :
  _selectedFilament (self w) = Some tool_cmd →
  _filamentChangeTriggered (self w) = true →
  Forall (λ i, keeps_choice i = true) inputs →
  startswith cmd "M109" = true →
  TIMEOUT_TAG ∉ tags →
  let w' := world (run_inputs w inputs) in
  _selectedFilament (self w') = Some tool_cmd ∧
  _filamentChangeTriggered (self w') = true ∧
  value (gcode_queuing_hook h cmd (Some tags) w')
    = inr (Rewrite [cmd; tool_cmd]).
Proof.
  intros Hs Hf Hin HM Ht w'.
  assert (_selectedFilament (self w') = Some tool_cmd ∧
          _filamentChangeTriggered (self w') = true) as [Hs' Hf'].
  { subst w'. unfold run_inputs.
    apply (run_inputs_invariant
             (λ o, _selectedFilament (self (world o)) = Some tool_cmd ∧
                   _filamentChangeTriggered (self (world o)) = true)
             (λ i, keeps_choice i = true)); [|done|done].
    intros o i Hk [H1 H2].
    destruct (deliver_keeps_choice o i Hk) as [-> ->]. done. }
  split; [done|]. split; [done|].
  by rewrite (gate_M109_pending h cmd tool_cmd tags w').
Qed.

Lemma recorded_choice_never_expires_witness :
  let w := after_select (IInt 2) 0 (after_show init_world) in
  let w' := world (run_inputs w
                     [Inbound NoFault "MMU can_load";
                      Outbound true "Tx" (Some ∅);
                      TimerElapsed 1;
                      Outbound true "G1 X10" None;
                      ApiCommand true "gettool" ∅]) in
  _selectedFilament (self w') = Some "T2" ∧
  _filamentChangeTriggered (self w') = true ∧
  value (gcode_queuing_hook true "M109 S215" (Some ∅) w')
    = inr (Rewrite ["M109 S215"; "T2"]).
Proof.
  apply (recorded_choice_never_expires
           (after_select (IInt 2) 0 (after_show init_world))
           [Inbound NoFault "MMU can_load";
            Outbound true "Tx" (Some ∅);
            TimerElapsed 1;
            Outbound true "G1 X10" None;
            ApiCommand true "gettool" ∅]
           "T2" "M109 S215" true ∅); try reflexivity.
  - repeat constructor.
  - apply not_elem_of_empty.
Defined.

(** ** What the gate hands to the printer *)

(** X2: what the hook answers for a command with a set of tags, case
    by case.  A command that carries the timeout tag, or that is neither
    a tool change nor an [M109], passes with nothing changed.  An untagged
    tool change is dropped ([Suppress]) whenever the hook returns, that
    is when the hold is refused or the timeout converts; with the hold
    granted and a timeout that [float] refuses the hook raises.  An
    untagged [M109] is followed by the recorded choice exactly when a
    choice is recorded with its flag set, and passes otherwise.  So a
    command that is no tool change is never dropped and never preceded
    by another one. *)
Theorem gate_sends_cases (h : bool) (cmd : string) (tags : gset string)
    (w : World) :
  let r := gcode_queuing_hook h cmd (Some tags) w in
  (TIMEOUT_TAG ∈ tags ∨
   (startswith cmd "Tx" = false ∧ startswith cmd "M109" = false) →
   r = mkRun (inr PassThrough) w []) ∧
  (startswith cmd "Tx" = true → TIMEOUT_TAG ∉ tags →
   h = false ∨ timeout_converts w = true →
   value r = inr Suppress ∧ sent_for cmd Suppress = []) ∧
  (startswith cmd "Tx" = true → TIMEOUT_TAG ∉ tags →
   h = true → timeout_converts w = false →
   value r = inl TypeError ∨ value r = inl OverflowError) ∧
  (startswith cmd "M109" = true → TIMEOUT_TAG ∉ tags →
   value r = inr (match _selectedFilament (self w) with
                  | Some tool_cmd =>
                      if _filamentChangeTriggered (self w)
                      then Rewrite [cmd; tool_cmd] else PassThrough
                  | None => PassThrough
                  end)) ∧
  (startswith cmd "Tx" = false →
   ∃ ret rest, value r = inr ret ∧ sent_for cmd ret = cmd :: rest).
Proof.
  intros r.
  assert (startswith cmd "M109" = true → TIMEOUT_TAG ∉ tags →
          value r = inr (match _selectedFilament (self w) with
                         | Some tool_cmd =>
                             if _filamentChangeTriggered (self w)
                             then Rewrite [cmd; tool_cmd] else PassThrough
                         | None => PassThrough
                         end)) as HM109.
  { intros HM Hout. subst r.
    destruct (_selectedFilament (self w)) as [f|] eqn:Hs.
    - destruct (_filamentChangeTriggered (self w)) eqn:Hf.
      + by rewrite (gate_M109_pending h cmd f tags w).
      + rewrite gate_M109_nothing_pending; [done|done|by right].
    - rewrite gate_M109_nothing_pending; [done|done|by left]. }
  assert (TIMEOUT_TAG ∈ tags ∨
          (startswith cmd "Tx" = false ∧ startswith cmd "M109" = false) →
          r = mkRun (inr PassThrough) w []) as Hpass.
  { intros [Hin|[HT HM]]; subst r.
    - by apply gate_timeout_tag.
    - by apply gate_irrelevant. }
  split; [done|]. split; [|split; [|split; [done|]]].
  - intros HT Hout Hh. subst r. by rewrite gate_Tx.
  - intros HT Hout -> Hc. subst r.
    destruct (gate_Tx_raises cmd tags w HT Hout Hc) as (e & [->| ->] & ->);
      auto.
  - intros HT.
    destruct (decide (TIMEOUT_TAG ∈ tags)) as [Hin|Hout].
    { rewrite Hpass by auto. by exists PassThrough, []. }
    destruct (startswith cmd "M109") eqn:HM.
    + rewrite HM109 by done.
      destruct (_selectedFilament (self w)) as [f|].
      * destruct (_filamentChangeTriggered (self w)).
        -- by exists (Rewrite [cmd; f]), [f].
        -- by exists PassThrough, [].
      * by exists PassThrough, [].
    + rewrite Hpass by auto. by exists PassThrough, [].
Qed.

(** ** Reachable worlds *)

Lemma received_hook_timer_known (f : SettingsFault) (l : string) (w : World) :
  timer_known w →
  timer_known (final (gcode_received_hook f l w)) ∧
  value (gcode_received_hook f l w) = inr l.
Proof.
  rewrite received_hook_final, received_hook_value. split; [|done].
  by destruct (classify l).
Qed.

(** No input writes [_timeout]. *)
Lemma deliver_timeout (o : Observed) (i : Input) :
  _timeout (self (world (deliver o i))) = _timeout (self (world o)).
Proof.
  destruct o as [[p ts] evs out exc]. destruct i as [f l|h c tg|cn cm d|id];
    simpl.
  - rewrite received_hook_final. by destruct (classify l).
  - run_cases.
  - run_cases.
  - run_cases.
Qed.

Lemma deliver_timeout_converts (o : Observed) (i : Input) :
  timeout_converts (world (deliver o i)) = timeout_converts (world o).
Proof. unfold timeout_converts. by rewrite deliver_timeout. Qed.

(** With a timeout that converts, [_show_prompt] stores its timer. *)
Lemma queuing_hook_timer_known (h : bool) (cmd : string)
    (tags : option (gset string)) (w : World) :
  timeout_converts w = true →
  timer_known w →
  timer_known (final (gcode_queuing_hook h cmd tags w)) ∧
  value (gcode_queuing_hook h cmd tags w) ≠ inl AttributeError.
Proof.
  destruct w as [p ts]. unfold timer_known, timeout_converts. run_cases.
Qed.

Lemma api_command_timer_known (can : bool) (command : string)
    (data : gmap string PyVal) (w : World) :
  timer_known w →
  timer_known (final (on_api_command can command data w)) ∧
  value (on_api_command can command data w) ≠ inl AttributeError.
Proof.
  destruct w as [[a sf fc [id|] ms mt tmo u d df] ts];
    unfold timer_known; simpl.
  - intros _. run_cases.
  - intros [-> ->]; [done|]. run_cases.
Qed.

Lemma Timer_run_timer_known (id : nat) (w : World) :
  timer_known w →
  timer_known (final (Timer_run id w)) ∧
  value (Timer_run id w) ≠ inl AttributeError.
Proof.
  destruct w as [[a sf fc [id0|] ms mt tmo u d df] ts];
    unfold timer_known; simpl.
  - intros _. run_cases.
  - intros [-> ->]; [done|]. run_cases.
Qed.

Lemma deliver_timer_known (o : Observed) (i : Input) :
  timeout_converts (world o) = true →
  timer_known (world o) ∧ AttributeError ∉ raised o →
  timer_known (world (deliver o i)) ∧ AttributeError ∉ raised (deliver o i).
Proof.
  intros Hc [Hk Hr]. destruct i as [f l|h c tg|cn cm d|id]; simpl.
  - destruct (received_hook_timer_known f l _ Hk) as [? ->].
    by rewrite app_nil_r.
  - destruct (queuing_hook_timer_known h c tg _ Hc Hk) as [? Hv].
    split; [done|]. rewrite elem_of_app. intros [?|Hin]; [done|].
    destruct (value _) as [e|]; [|by apply elem_of_nil in Hin].
    apply list_elem_of_singleton in Hin. by subst e.
  - destruct (api_command_timer_known cn cm d _ Hk) as [? Hv].
    split; [done|]. rewrite elem_of_app. intros [?|Hin]; [done|].
    destruct (value _) as [e|]; [|by apply elem_of_nil in Hin].
    apply list_elem_of_singleton in Hin. by subst e.
  - destruct (Timer_run_timer_known id _ Hk) as [? Hv].
    split; [done|]. rewrite elem_of_app. intros [?|Hin]; [done|].
    destruct (value _) as [e|]; [|by apply elem_of_nil in Hin].
    apply list_elem_of_singleton in Hin. by subst e.
Qed.

(** X3: [self._timer.cancel()] never meets [None].  From the state that
    [__init__] builds, no sequence of firmware lines, outbound commands,
    API requests and elapsing timers (for any timer id, in any order)
    makes a method raise [AttributeError]: a prompt is only ever active,
    and a timer only ever runs, once [_show_prompt] has stored a timer. *)
Theorem no_attribute_error (inputs : list Input) :
  let o := run_inputs init_world inputs in
  (AttributeError ∉ raised o) ∧ timer_known (world o).
Proof.
  intros o. subst o. unfold run_inputs.
  apply and_comm.
  apply (run_inputs_invariant
           (λ o, timeout_converts (world o) = true ∧
                 timer_known (world o) ∧ AttributeError ∉ raised o)
           (λ _, True)).
  - intros o i _ [Hc Hk]. split.
    + by rewrite deliver_timeout_converts.
    + by apply deliver_timer_known.
  - by apply Forall_forall.
  - split; [reflexivity|]. split; [done|]. apply not_elem_of_nil.
Qed.

(** ** The status *)

Lemma classify_literal (l st : string) :
  classify l = Some st → st ∈ status_literals.
Proof.
  unfold classify, classifier_table, status_literals.
  cbn [List.find fst snd].
  repeat (destruct (contains _ l);
          [intros [= <-]; set_solver|]).
  done.
Qed.

Lemma deliver_status (o : Observed) (i : Input) :
  mmuState (self (world (deliver o i))) = mmuState (self (world o)) ∨
  mmuState (self (world (deliver o i))) ∈ status_literals.
Proof.
  destruct o as [[p ts] evs out exc]. destruct i as [f l|h c tg|cn cm d|id];
    simpl.
  - rewrite received_hook_final. destruct (classify l) as [st|] eqn:E.
    + right. by apply classify_literal in E.
    + by left.
  - left. run_cases.
  - left. run_cases.
  - left. run_cases.
Qed.

(** X4: the status only ever holds the literals of the code.  After any
    run of inputs [mmuState] is the status the run started with or one of
    "OK", "PAUSED_USER", "ATTENTION", "UNLOADING", "LOADING", "LOADED";
    started from the state of [__init__] it is always one of the six. *)
Theorem status_stays_literal (w : World) (inputs : list Input) :
  (mmuState (self (world (run_inputs w inputs))) = mmuState (self w) ∨
   mmuState (self (world (run_inputs w inputs))) ∈ status_literals) ∧
  mmuState (self (world (run_inputs init_world inputs))) ∈ status_literals.
Proof.
  assert (∀ w0,
            mmuState (self (world (run_inputs w0 inputs))) = mmuState (self w0) ∨
            mmuState (self (world (run_inputs w0 inputs))) ∈ status_literals)
    as Hgen.
  { intros w0. unfold run_inputs.
    apply (run_inputs_invariant
             (λ o, mmuState (self (world o)) = mmuState (self w0) ∨
                   mmuState (self (world o)) ∈ status_literals)
             (λ _, True)).
    - intros o i _ [Heq|Hin].
      + destruct (deliver_status o i) as [->|?]; auto.
      + destruct (deliver_status o i) as [->|?]; auto.
    - by apply Forall_forall.
    - by left. }
  split; [apply Hgen|].
  destruct (Hgen init_world) as [->|?]; [|done].
  simpl. unfold status_literals. set_solver.
Qed.

Lemma count_app (P : Event → bool) (a b : list Event) :
  count P (a ++ b) = (count P a + count P b)%nat.
Proof. unfold count. by rewrite List.filter_app, length_app. Qed.

Lemma update_nav_ui (f : SettingsFault) (st : string) (w : World) :
  List.filter is_ui_message (trace (_update_nav f st w)) =
    if decide (st = mmuState (self w)) then []
    else [SendPluginMessage (MsgNav (mmuTool (self w)) st)].
Proof.
  destruct (decide (st = mmuState (self w))) as [->|Hne].
  - by rewrite update_nav_same.
  - unfold _update_nav. erewrite bind_ok by reflexivity.
    rewrite decide_False by done. by destruct f.
Qed.

Lemma update_nav_nav_count (f : SettingsFault) (st : string) (w : World) :
  count is_nav (trace (_update_nav f st w)) =
    if decide (st = mmuState (self w)) then 0%nat else 1%nat.
Proof.
  destruct (decide (st = mmuState (self w))) as [->|Hne].
  - by rewrite update_nav_same.
  - by destruct (update_nav_changed f st w Hne) as (_ & _ & _ & -> & _).
Qed.

(** X5: the UI is told once per change of status.  For any sequence of
    firmware lines, whatever the settings collaborator does at each of
    them, the number of "nav" messages sent equals the number of times
    the classified status differs from the status before it; lines that
    match no pattern and repeated statuses send nothing. *)
Theorem nav_once_per_status_change (w : World)
    (lines : list (SettingsFault * string)) :
  count is_nav (events (run_inputs w (inbound <$> lines))) =
    status_changes (mmuState (self w)) (omap (λ fl, classify (snd fl)) lines).
Proof.
  unfold run_inputs.
  change (status_changes (mmuState (self w)) ?x)
    with (count is_nav (events (mkObserved w [] [] [])) +
          status_changes
            (mmuState (self (world (mkObserved w [] [] [])))) x)%nat.
  generalize (mkObserved w [] [] []) as o.
  induction lines as [|[f l] lines IH]; intros o.
  - simpl. lia.
  - cbn [fmap list_fmap fold_left]. rewrite IH. clear IH.
    cbn [inbound deliver fst snd world events omap list_omap].
    rewrite count_app, received_hook_final, received_hook_run.
    destruct (classify l) as [st|] eqn:E.
    + cbn [trace status_changes self mmuState set_mmuState].
      rewrite update_nav_nav_count.
      destruct (decide (st = mmuState (self (world o)))); simpl; lia.
    + cbn [trace]. unfold count at 2. simpl. lia.
Qed.

(** X6: failures of the settings store are swallowed.  Whatever the
    settings calls do (all succeed, or any one of them raises), the
    received hook returns the line, ends in the same state and sends the
    same messages to the UI. *)
Theorem settings_faults_are_swallowed (f f' : SettingsFault) (l : string)
    (w : World) :
  value (gcode_received_hook f l w) = inr l ∧
  final (gcode_received_hook f l w) = final (gcode_received_hook f' l w) ∧
  List.filter is_ui_message (trace (gcode_received_hook f l w))
    = List.filter is_ui_message (trace (gcode_received_hook f' l w)).
Proof.
  split; [apply received_hook_value|].
  split; [by rewrite !received_hook_final|].
  rewrite !received_hook_run. destruct (classify l); [|done].
  cbn [trace]. by rewrite !update_nav_ui.
Qed.

(** ** Timers *)

Lemma done_app (id : nat) (ts ts' : list Timer) :
  (∃ t, ts !! id = Some t ∧ finished t = true) →
  ∃ t, (ts ++ ts') !! id = Some t ∧ finished t = true.
Proof.
  intros (t & E & F). exists t. split; [|done].
  rewrite lookup_app_l; [done|]. by eapply lookup_lt_Some.
Qed.

Lemma done_set_finished (id id' : nat) (ts : list Timer) :
  (∃ t, ts !! id = Some t ∧ finished t = true) →
  ∃ t, set_finished id' ts !! id = Some t ∧ finished t = true.
Proof.
  intros (t & E & F). unfold set_finished.
  destruct (ts !! id') as [t'|] eqn:E'; [|by exists t].
  destruct (decide (id' = id)) as [->|Hne].
  - exists (mkTimer (interval t') true). split; [|reflexivity].
    apply list_lookup_insert_eq. by eapply lookup_lt_Some.
  - exists t. by rewrite list_lookup_insert_ne.
Qed.

Lemma deliver_timer_done (id : nat) (o : Observed) (i : Input) :
  timer_done id (world o) → timer_done id (world (deliver o i)).
Proof.
  destruct o as [[p ts] evs out exc]. unfold timer_done.
  destruct i as [f l|h c tg|cn cm d|id']; simpl; intros Hd.
  - rewrite received_hook_final. by destruct (classify l).
  - run_cases; by apply done_app.
  - run_cases; by apply done_set_finished.
  - run_cases; by repeat apply done_set_finished.
Qed.

(** X7: a timer that was cancelled or has run stays silent.  Once the
    [finished] event of a timer is set, no later input clears it, and the
    elapsing of that timer does nothing: no "Tx", no clean-up, no change,
    however the plugin was used in between. *)
Theorem finished_timer_stays_silent (w : World) (id : nat)
    (inputs : list Input) :
  timer_done id w →
  let w' := world (run_inputs w inputs) in
  timer_done id w' ∧ Timer_run id w' = mkRun (inr tt) w' [].
Proof.
  intros Hd w'.
  assert (timer_done id w') as Hd'.
  { subst w'. unfold run_inputs.
    apply (run_inputs_invariant (λ o, timer_done id (world o)) (λ _, True));
      [|by apply Forall_forall|done].
    intros o i _. apply deliver_timer_done. }
  split; [done|]. destruct Hd' as (t & E & F).
  by apply (Timer_run_finished id t).
Qed.

Lemma finished_timer_stays_silent_witness :
  let w := after_select (IInt 1) 0 (after_show init_world) in
  let w' := world (run_inputs w [Outbound true "M109 S215" (Some ∅);
                                 Outbound true "Tx" (Some ∅);
                                 Inbound NoFault "MMU can_load"]) in
  timer_done 0 w' ∧ Timer_run 0 w' = mkRun (inr tt) w' [].
Proof.
  apply (finished_timer_stays_silent
           (after_select (IInt 1) 0 (after_show init_world)) 0
           [Outbound true "M109 S215" (Some ∅);
            Outbound true "Tx" (Some ∅);
            Inbound NoFault "MMU can_load"]).
  exists (mkTimer 30 true). split; reflexivity.
Defined.

(** The timer thread of a timer other than the one [_timer] refers to:
    its callback cleans up the session of the current timer. *)
Lemma Timer_run_other (id id' : nat) (t : Timer) (w : World) :
  _timer (self w) = Some id' →
  timers w !! id = Some t → finished t = false →
  Timer_run id w =
    mkRun (inr tt)
      (mkWorld (set_active false (self w))
               (set_finished id (set_finished id' (timers w))))
      [PrinterCommands "Tx" {[ TIMEOUT_TAG ]}; TimerCancel id';
       SendPluginMessage MsgClose; SetJobOnHold false].
Proof.
  intros Ht E F. unfold Timer_run.
  erewrite bind_ok by reflexivity. rewrite E, F.
  erewrite bind_ok by (by apply (timeout_prompt_run id')).
  reflexivity.
Qed.

(** X8: a prompt opened over an open one inherits the earlier timer.
    [_show_prompt] replaces [_timer] without cancelling the timer it
    referred to.  So, when the timeout converts to the float [seconds]
    and a new prompt is opened while an earlier timer waits, the elapsing
    of that earlier timer sends the timeout "Tx" and cleans up the new
    session: the new timer is cancelled, [_active] is cleared, "close" is
    sent and the hold is released, before the new timeout has run. *)
Theorem earlier_timer_closes_new_prompt (w : World) (id : nat) (t : Timer)
    (cmd : string) (tags : gset string) (n seconds : Z) :
  _timer (self w) = Some id →
  timers w !! id = Some t →
  finished t = false →
  _timeout (self w) = Some n →
  float_of_int n = Some seconds →
  startswith cmd "Tx" = true →
  TIMEOUT_TAG ∉ tags →
  let w1 := final (gcode_queuing_hook true cmd (Some tags) w) in
  let new := length (timers w) in
  let r := Timer_run id w1 in
  _active (self w1) = true ∧
  _timer (self w1) = Some new ∧
  timers w1 !! id = Some t ∧
  timers w1 !! new = Some (mkTimer seconds false) ∧
  value r = inr tt ∧
  trace r = [PrinterCommands "Tx" {[ TIMEOUT_TAG ]}; TimerCancel new;
             SendPluginMessage MsgClose; SetJobOnHold false] ∧
  _active (self (final r)) = false ∧
  timers (final r) !! new = Some (mkTimer seconds true).
Proof.
  intros Ht E F Hn Hf HT Htag w1 new r.
  assert (id < length (timers w))%nat as Hlt by (by eapply lookup_lt_Some).
  assert (timeout_converts w = true) as Hc.
  { unfold timeout_converts. rewrite Hn. simpl. by rewrite Hf. }
  assert (timeout_seconds w = seconds) as Hs.
  { unfold timeout_seconds. rewrite Hn. simpl. by rewrite Hf. }
  assert (w1 = after_show w) as Hw1.
  { subst w1. by rewrite gate_Tx by auto. }
  assert (timers w1 !! id = Some t) as E1.
  { rewrite Hw1. simpl. by rewrite lookup_app_l. }
  assert (timers w1 !! new = Some (mkTimer seconds false)) as E2.
  { rewrite Hw1. simpl. subst new.
    rewrite lookup_app_r by lia. by rewrite Nat.sub_diag, Hs. }
  assert (_timer (self w1) = Some new) as Ht1 by (by rewrite Hw1).
  subst r. rewrite (Timer_run_other id new t w1 Ht1 E1 F).
  cbn [value trace final self timers].
  repeat split; try done.
  - by rewrite Hw1.
  - unfold set_finished at 1.
    assert (set_finished new (timers w1) !! id = Some t) as ->.
    { unfold set_finished. rewrite E2.
      rewrite list_lookup_insert_ne by lia. done. }
    rewrite list_lookup_insert_ne by lia.
    by apply set_finished_lookup in E2.
Qed.

Lemma earlier_timer_closes_new_prompt_witness :
  let w := after_show init_world in
  let w1 := final (gcode_queuing_hook true "Tx" (Some ∅) w) in
  let r := Timer_run 0 w1 in
  _active (self w1) = true ∧
  _timer (self w1) = Some 1%nat ∧
  timers w1 !! 0%nat = Some (mkTimer 30 false) ∧
  timers w1 !! 1%nat = Some (mkTimer 30 false) ∧
  value r = inr tt ∧
  trace r = [PrinterCommands "Tx" {[ TIMEOUT_TAG ]}; TimerCancel 1;
             SendPluginMessage MsgClose; SetJobOnHold false] ∧
  _active (self (final r)) = false ∧
  timers (final r) !! 1%nat = Some (mkTimer 30 true).
Proof.
  apply (earlier_timer_closes_new_prompt (after_show init_world) 0
           (mkTimer 30 false) "Tx" ∅ 30 30); try reflexivity.
  apply not_elem_of_empty.
Defined.

(** ** Requests *)

(** X9: the guards of "select" answer in a fixed order.  Without the
    permission the request is refused with 403 whatever the session and
    the body are; with it but without an active prompt, with 409 whatever
    the body is; and with an active prompt a body without the key
    "choice" raises [KeyError].  In each case nothing is changed and
    nobody is called. *)
Theorem select_error_precedence (data : gmap string PyVal) (w : World) :
  on_api_command false "select" data w
    = mkRun (inl (HTTPException 403)) w [] ∧
  (_active (self w) = false →
   on_api_command true "select" data w
     = mkRun (inl (HTTPException 409)) w []) ∧
  (_active (self w) = true → data !! "choice" = None →
   on_api_command true "select" data w = mkRun (inl KeyError) w []).
Proof.
  split; [|split]; intros; unfold on_api_command;
    rewrite decide_True by done; apply bind_raise.
  - apply select_guards_no_permission.
  - by apply select_guards_not_active.
  - unfold select_guards. unfold_run. simpl.
    by repeat match goal with H : _ = _ |- _ => rewrite H end.
Qed.

Lemma run_world_indep (inputs : list Input) (o o' : Observed) :
  world o = world o' →
  world (fold_left deliver inputs o) = world (fold_left deliver inputs o').
Proof.
  revert o o'. induction inputs as [|i inputs IH]; intros o o' Hw; [done|].
  simpl. apply IH. destruct i; simpl; by rewrite Hw.
Qed.

Lemma run_inputs_cons_world (w : World) (i : Input) (inputs : list Input) :
  world (run_inputs w (i :: inputs)) =
    world (run_inputs (world (deliver (mkObserved w [] [] []) i)) inputs).
Proof. unfold run_inputs. simpl. by apply run_world_indep. Qed.

Lemma run_keeps_choice (w : World) (inputs : list Input) :
  Forall (λ i, keeps_choice i = true) inputs →
  _selectedFilament (self (world (run_inputs w inputs)))
    = _selectedFilament (self w) ∧
  _filamentChangeTriggered (self (world (run_inputs w inputs)))
    = _filamentChangeTriggered (self w).
Proof.
  intros Hin. unfold run_inputs.
  apply (run_inputs_invariant
           (λ o, _selectedFilament (self (world o))
                   = _selectedFilament (self w) ∧
                 _filamentChangeTriggered (self (world o))
                   = _filamentChangeTriggered (self w))
           (λ i, keeps_choice i = true)); [|done|done].
  intros o i Hk [H1 H2].
  destruct (deliver_keeps_choice o i Hk) as [-> ->]. done.
Qed.

(** X10: from the choice to the printer.  When a "select" of tool [c]
    (0 to 4) is accepted on an open session, then, whatever inputs that
    keep a recorded choice follow, the next untagged [M109] reaches the
    printer followed by "T" and the decimal digits of [c], after which
    nothing is recorded any more; and different tools give different
    commands. *)
Theorem chosen_tool_reaches_next_m109 (w : World) (id : nat) (c : Z)
    (data : gmap string PyVal) (inputs : list Input) (h : bool)
    (cmd : string) (tags : gset string) :
  _active (self w) = true →
  _timer (self w) = Some id →
  data !! "choice" = Some (PyInt c) →
  0 ≤ c < 5 →
  Forall (λ i, keeps_choice i = true) inputs →
  startswith cmd "M109" = true →
  TIMEOUT_TAG ∉ tags →
  let before := run_inputs w (ApiCommand true "select" data :: inputs) in
  let o := deliver before (Outbound h cmd (Some tags)) in
  outbound o = outbound before ++ [cmd; "T" +:+ pretty c] ∧
  _selectedFilament (self (world o)) = None ∧
  mmuTool (self (world o)) = PyStr ("T" +:+ pretty c) ∧
  (∀ c' : Z, "T" +:+ pretty c' = "T" +:+ pretty c → c' = c).
Proof.
  intros Ha Ht Hd Hc Hin HM Htag before o.
  assert (_selectedFilament (self (world before)) = Some ("T" +:+ pretty c) ∧
          _filamentChangeTriggered (self (world before)) = true) as [Hs Hf].
  { subst before. rewrite run_inputs_cons_world.
    cbn [deliver world].
    rewrite (select_accepted data w id (PyInt c) (IInt c)) by done.
    cbn [final].
    destruct (run_keeps_choice (after_select (IInt c) id w) inputs Hin)
      as [-> ->]. done. }
  subst o. cbn [deliver outbound world].
  rewrite (gate_M109_pending h cmd _ tags (world before) HM Htag Hs Hf).
  cbn [value final sent_for]. repeat split.
  intros c' Heq. apply (inj (String.app "T")) in Heq.
  by apply (inj pretty) in Heq.
Qed.

Lemma chosen_tool_reaches_next_m109_witness :
  let w := after_show init_world in
  let data : gmap string PyVal := {[ "choice" := PyInt 3 ]} in
  let inputs := [Inbound NoFault "paused for user";
                 Outbound true "G28" (Some ∅)] in
  let before := run_inputs w (ApiCommand true "select" data :: inputs) in
  let o := deliver before (Outbound true "M109 S215" (Some ∅)) in
  outbound o = outbound before ++ ["M109 S215"; "T" +:+ pretty 3] ∧
  _selectedFilament (self (world o)) = None ∧
  mmuTool (self (world o)) = PyStr ("T" +:+ pretty 3) ∧
  (∀ c' : Z, "T" +:+ pretty c' = "T" +:+ pretty 3 → c' = 3).
Proof.
  apply (chosen_tool_reaches_next_m109 (after_show init_world) 0 3
           {[ "choice" := PyInt 3 ]}
           [Inbound NoFault "paused for user"; Outbound true "G28" (Some ∅)]
           true "M109 S215" ∅); try reflexivity.
  - lia.
  - repeat constructor.
  - apply not_elem_of_empty.
Defined.

(** ** Saving the settings *)

Section SettingsSave.
Context {V : Type} `{PyConv V}.

(** [int] of an int is that int. *)
Hypothesis int_of_int : ∀ z, py_int (of_int z) = Some z.

Lemma save_timeout_spec (data : gmap string V) :
  (∃ t, save_timeout data !! "timeout" = Some (of_int t) ∧ 0 ≤ t ∧
        t = match data !! "timeout" ≫= py_int with
            | Some z => if z <? 0 then DEFAULT_TIMEOUT else z
            | None => DEFAULT_TIMEOUT
            end) ∧
  (∀ k, k ≠ "timeout" → save_timeout data !! k = data !! k).
Proof.
  unfold save_timeout, DEFAULT_TIMEOUT.
  destruct (data !! "timeout" ≫= py_int) as [z|].
  - destruct (z <? 0) eqn:E.
    + split; [exists 30|intros k Hk]; by simplify_map_eq.
    + split; [exists z|intros k Hk]; simplify_map_eq; [|done].
      split; [done|]. split; [lia|done].
  - split; [exists 30|intros k Hk]; by simplify_map_eq.
Qed.

Lemma save_filament_spec (data : gmap string V) :
  let data' := save_defaultFilament (save_useDefaultFilament data) in
  (∃ b d, data' !! "useDefaultFilament" = Some (of_bool b) ∧
          data' !! "defaultFilament" = Some (of_int d) ∧
          (b = true ↔ 0 ≤ d)) ∧
  (∀ k, k ≠ "useDefaultFilament" → k ≠ "defaultFilament" →
        data' !! k = data !! k).
Proof.
  unfold save_defaultFilament, save_useDefaultFilament.
  destruct (data !! "useDefaultFilament") as [v|] eqn:Eu.
  - destruct (py_bool v) eqn:Eb; cbn [negb].
    + rewrite lookup_insert_ne by done.
      destruct (data !! "defaultFilament" ≫= py_int) as [d|] eqn:Ed.
      * destruct (d <? 0) eqn:E.
        -- split; [exists false, d|intros k ? ?]; simplify_map_eq; [|done].
           split; [done|]. split; [done|]. split; [done|lia].
        -- split; [exists true, d|intros k ? ?]; simplify_map_eq; [|done].
           split; [done|]. split; [done|]. split; [lia|done].
      * split; [exists false, (-1)|intros k ? ?]; simplify_map_eq; [|done].
        split; [done|]. split; [done|]. split; [done|lia].
    + rewrite lookup_insert_eq. cbn [mbind option_bind].
      rewrite int_of_int. cbn [Z.ltb Z.compare].
      split; [exists false, (-1)|intros k ? ?]; simplify_map_eq; [|done].
      split; [done|]. split; [done|]. split; [done|lia].
  - rewrite lookup_insert_ne, lookup_insert_eq by done.
    cbn [mbind option_bind]. rewrite int_of_int. cbn [Z.ltb Z.compare].
    split; [exists false, (-1)|intros k ? ?]; simplify_map_eq; [|done].
    split; [done|]. split; [done|]. split; [done|lia].
Qed.

(** X11: what [on_settings_save] hands on is normalised, whatever the
    form sent (keys missing, values that [int] refuses, negative
    numbers): "timeout" is a non-negative int, the converted value or
    the default 30; "useDefaultFilament" is a boolean and
    "defaultFilament" an int, the boolean being [True] exactly when the
    int is not negative; all other keys are passed on as they came. *)
Theorem settings_save_normalises (data : gmap string V) :
  let data' := on_settings_save_data data in
  (∃ t, data' !! "timeout" = Some (of_int t) ∧ 0 ≤ t ∧
        t = match data !! "timeout" ≫= py_int with
            | Some z => if z <? 0 then DEFAULT_TIMEOUT else z
            | None => DEFAULT_TIMEOUT
            end) ∧
  (∃ b d, data' !! "useDefaultFilament" = Some (of_bool b) ∧
          data' !! "defaultFilament" = Some (of_int d) ∧
          (b = true ↔ 0 ≤ d)) ∧
  (∀ k, k ≠ "timeout" → k ≠ "useDefaultFilament" →
        k ≠ "defaultFilament" → data' !! k = data !! k).
Proof.
  intros data'. subst data'. unfold on_settings_save_data.
  destruct (save_timeout_spec data) as [Ht Hk].
  destruct (save_filament_spec (save_timeout data)) as [Hf Hk'].
  cbv zeta in Hf, Hk'.
  split; [|split].
  - rewrite Hk' by done. exact Ht.
  - exact Hf.
  - intros k ? ? ?. rewrite Hk' by done. by apply Hk.
Qed.

(** [bool] of a boolean is that boolean. *)
Hypothesis bool_of_bool : ∀ b, py_bool (of_bool b) = b.

(** X12: settings that are already in normal form are handed on
    unchanged: a non-negative int timeout, and either
    "useDefaultFilament" [True] with a non-negative int
    "defaultFilament", or [False] with -1. *)
Theorem settings_save_keeps_valid (data : gmap string V) (t d : Z)
    (b : bool) :
  data !! "timeout" = Some (of_int t) →
  data !! "useDefaultFilament" = Some (of_bool b) →
  data !! "defaultFilament" = Some (of_int d) →
  0 ≤ t →
  (b = true ∧ 0 ≤ d) ∨ (b = false ∧ d = -1) →
  on_settings_save_data data = data.
Proof.
  intros Ht Hu Hd Ht0 Hbd.
  assert (save_timeout data = data) as E1.
  { unfold save_timeout. rewrite Ht. cbn [mbind option_bind].
    rewrite int_of_int.
    assert ((t <? 0) = false) as -> by lia. by apply insert_id. }
  assert (save_useDefaultFilament data = data) as E2.
  { unfold save_useDefaultFilament. rewrite Hu, bool_of_bool.
    destruct Hbd as [[-> _]|[-> ->]]; cbn [negb].
    - by apply insert_id.
    - rewrite (insert_id data "useDefaultFilament") by done.
      by apply insert_id. }
  assert (save_defaultFilament data = data) as E3.
  { unfold save_defaultFilament. rewrite Hd. cbn [mbind option_bind].
    rewrite int_of_int.
    destruct Hbd as [[-> Hd0]|[-> ->]].
    - assert ((d <? 0) = false) as -> by lia. by apply insert_id.
    - cbn [Z.ltb Z.compare].
      rewrite (insert_id data "defaultFilament") by done.
      by apply insert_id. }
  unfold on_settings_save_data. by rewrite E1, E2, E3.
Qed.

(** X13: a negative default slips through once.  With
    "useDefaultFilament" set and a negative "defaultFilament" the save
    turns the flag off but hands on the negative number, not the -1 of
    an unused default; saving the result again turns it into -1, so a
    save is not idempotent. *)
Theorem negative_default_kept_once (data : gmap string V) (v dv : V)
    (d : Z) :
  data !! "useDefaultFilament" = Some v →
  py_bool v = true →
  data !! "defaultFilament" = Some dv →
  py_int dv = Some d →
  d < -1 →
  let once := on_settings_save_data data in
  let twice := on_settings_save_data once in
  once !! "useDefaultFilament" = Some (of_bool false) ∧
  once !! "defaultFilament" = Some (of_int d) ∧
  twice !! "useDefaultFilament" = Some (of_bool false) ∧
  twice !! "defaultFilament" = Some (of_int (-1)).
Proof.
  intros Hu Hb Hd Hi Hneg once twice.
  assert (once !! "useDefaultFilament" = Some (of_bool false) ∧
          once !! "defaultFilament" = Some (of_int d)) as [Ho1 Ho2].
  { subst once. unfold on_settings_save_data.
    destruct (save_timeout_spec data) as [_ Hk].
    unfold save_defaultFilament, save_useDefaultFilament.
    rewrite (Hk "useDefaultFilament") by done. rewrite Hu, Hb.
    cbn [negb]. rewrite lookup_insert_ne by done.
    rewrite (Hk "defaultFilament") by done. rewrite Hd.
    cbn [mbind option_bind]. rewrite Hi.
    assert ((d <? 0) = true) as -> by lia.
    by simplify_map_eq. }
  split; [done|]. split; [done|].
  subst twice. unfold on_settings_save_data.
  destruct (save_timeout_spec once) as [_ Hk].
  unfold save_defaultFilament, save_useDefaultFilament.
  rewrite (Hk "useDefaultFilament") by done.
  rewrite Ho1, bool_of_bool. cbn [negb].
  rewrite lookup_insert_eq. cbn [mbind option_bind].
  rewrite int_of_int. cbn [Z.ltb Z.compare].
  by simplify_map_eq.
Qed.
End SettingsSave.

Lemma settings_save_normalises_witness :
  let data : gmap string IntVal :=
    {[ "timeout" := IInt (-5); "useDefaultFilament" := IBool true ]} in
  let data' := on_settings_save_data data in
  (∃ t, data' !! "timeout" = Some (of_int t) ∧ 0 ≤ t ∧
        t = match data !! "timeout" ≫= py_int with
            | Some z => if z <? 0 then DEFAULT_TIMEOUT else z
            | None => DEFAULT_TIMEOUT
            end) ∧
  (∃ b d, data' !! "useDefaultFilament" = Some (of_bool b) ∧
          data' !! "defaultFilament" = Some (of_int d) ∧
          (b = true ↔ 0 ≤ d)) ∧
  (∀ k, k ≠ "timeout" → k ≠ "useDefaultFilament" →
        k ≠ "defaultFilament" → data' !! k = data !! k).
Proof.
  apply (settings_save_normalises (V := IntVal)).
  intros z. reflexivity.
Defined.

Lemma settings_save_keeps_valid_witness :
  let data : gmap string IntVal :=
    {[ "timeout" := IInt 45; "useDefaultFilament" := IBool true;
       "defaultFilament" := IInt 2 ]} in
  on_settings_save_data data = data.
Proof.
  apply (settings_save_keeps_valid (V := IntVal)) with (t := 45) (d := 2)
                                                       (b := true);
    try reflexivity.
  - by intros [].
  - lia.
  - left. split; [reflexivity|lia].
Defined.

Lemma negative_default_kept_once_witness :
  let data : gmap string IntVal :=
    {[ "useDefaultFilament" := IBool true; "defaultFilament" := IInt (-5) ]} in
  let once := on_settings_save_data data in
  let twice := on_settings_save_data once in
  once !! "useDefaultFilament" = Some (of_bool false) ∧
  once !! "defaultFilament" = Some (of_int (-5)) ∧
  twice !! "useDefaultFilament" = Some (of_bool false) ∧
  twice !! "defaultFilament" = Some (of_int (-1)).
Proof.
  apply (negative_default_kept_once (V := IntVal)) with (v := IBool true)
                                                        (dv := IInt (-5));
    try reflexivity.
  by intros [].
Defined.

(** ** Between sessions *)





(** ** A prompt without a timer *)


